(** * Lactic acidosis detection pipeline: a shallow embedding

    The development follows [acidosis_detection.py].  Every definition below
    embeds one source function (or one loop of it) and keeps its name.

    Conventions of the embedding:
    - instants ([charttime], [scheduletime]) and durations ([timedelta]) are
      integers, counted in nanoseconds as pandas does; a missing
      [scheduletime] (pandas [NaT]) is [None], and compares false;
    - a [measure_value] is an IEEE-754 binary64 number ([spec_float]), with
      the comparisons of the standard, so that [NaN] compares false;
    - identifiers ([subject_id], [itemid]) are integers;
    - the difference of two instants is exact: the out-of-bounds error that
      pandas raises at line 164 when two instants of one run lie more than
      2^63 nanoseconds apart is not modelled;
    - [set(...)] has no specified order in Python: [py_set_list] lists a set
      in an order of its own, and no statement depends on that order;
    - a pandas frame is the list of its rows, in row order;
    - a raised exception is the [Raise] branch of [result]. *)

From Stdlib Require Import ZArith QArith Floats.SpecFloat.
From stdpp Require Import base decidable option list sorting gmap strings pretty.

Open Scope Z_scope.

(** ** Python floats *)

Module PyFloat.

Definition prec : Z := 53.
Definition emax : Z := 1024.

(** [float(n)] for an integer [n]. *)
Definition of_int (n : Z) : spec_float := binary_normalize prec emax n 0 false.

(** The value a decimal literal [n / d] denotes: the nearest binary64. *)
Definition of_decimal (n d : Z) : spec_float :=
  SFdiv prec emax (of_int n) (of_int d).

(** [a > b] and [a <= b] on floats. *)
Definition gt (a b : spec_float) : bool := SFltb b a.
Definition le (a b : spec_float) : bool := SFleb a b.

Definition truediv (a b : spec_float) : spec_float := SFdiv prec emax a b.
Definition mul (a b : spec_float) : spec_float := SFmul prec emax a b.

End PyFloat.

(** ** Rows of the input frames *)

(** A row of [bp], the laboratory events (the column [hadm_id] is never read
    by the pipeline and is left out). *)
Record lab_event := LabEvent {
  subject_id : Z;
  charttime : Z;
  itemid : Z;
  measure_value : spec_float
}.

(** A row of [vadrugs], the medication administrations. *)
Record emar_row := EmarRow {
  drug_subject_id : Z;
  medication : string;
  scheduletime : option Z
}.

(** An episode is the pair [(start, end)] appended at line 165. *)
Definition episode : Type := Z * Z.

(** ** The abnormality test (lines 154-157) *)

(** The literals [4.0] and [7.35]. *)
Definition lactate_threshold : spec_float :=
  Eval vm_compute in PyFloat.of_decimal 4 1.
Definition ph_threshold : spec_float :=
  Eval vm_compute in PyFloat.of_decimal 735 100.

(** *** The numbers that floats stand for *)

(** What a float denotes: a rational number, an infinity, or no number. *)
Inductive float_value :=
  | Number (q : Q)
  | PlusInfinity
  | MinusInfinity
  | NotANumber.

(** The rational [m * 2 ^ e]. *)
Definition scaled (m : positive) (e : Z) : Q :=
  match e with
  | Z0 => Zpos m # 1
  | Zpos p => (Zpos m * 2 ^ Zpos p) # 1
  | Zneg p => Zpos m # (2 ^ p)
  end.

Definition float_value_of (f : spec_float) : float_value :=
  match f with
  | S754_zero _ => Number 0
  | S754_infinity false => PlusInfinity
  | S754_infinity true => MinusInfinity
  | S754_nan => NotANumber
  | S754_finite false m e => Number (scaled m e)
  | S754_finite true m e => Number (- scaled m e)
  end.

(** [v > bound] and [v <= bound] as the mathematics has them, for a
    rational [bound]; both are false of what is not a number. *)
Definition exceeds (v : float_value) (bound : Q) : Prop :=
  match v with
  | Number q => (bound < q)%Q
  | PlusInfinity => True
  | MinusInfinity | NotANumber => False
  end.

Definition at_most (v : float_value) (bound : Q) : Prop :=
  match v with
  | Number q => (q <= bound)%Q
  | MinusInfinity => True
  | PlusInfinity | NotANumber => False
  end.

(** The floats a [float64] column can hold: mantissa and exponent in the
    canonical form of binary64. *)
Definition is_binary64 (f : spec_float) : Prop :=
  valid_binary PyFloat.prec PyFloat.emax f = true.

(** [x in items] on a Python list. *)
Definition py_in (x : Z) (items : list Z) : bool := bool_decide (x ∈ items).

Definition is_abnormal (lactate_items ph_items : list Z)
    (item : Z) (value : spec_float) : bool :=
  (py_in item lactate_items && PyFloat.gt value lactate_threshold)
  || (py_in item ph_items && PyFloat.le value ph_threshold).

Definition record_abnormal (lactate_items ph_items : list Z) (r : lab_event) : bool :=
  is_abnormal lactate_items ph_items (itemid r) (measure_value r).

(** ** The segmentation loop (lines 149-166) *)

(** The two variables the loop over [data.iterrows()] updates. *)
Record scan_state := ScanState {
  start : option Z;
  episodes : list episode
}.

Definition scan_init : scan_state := ScanState None [].

(** One iteration of the loop body, lines 152-166. *)
Definition scan_step (lactate_items ph_items : list Z) (min_duration : Z)
    (st : scan_state) (record : lab_event) : scan_state :=
  if record_abnormal lactate_items ph_items record then
    match start st with
    | None => ScanState (Some (charttime record)) (episodes st)
    | Some _ => st
    end
  else
    match start st with
    | Some s =>
        let e := charttime record in
        ScanState None
          (if bool_decide (min_duration ≤ e - s)
           then episodes st ++ [(s, e)]
           else episodes st)
    | None => st
    end.

Definition scan (lactate_items ph_items : list Z) (min_duration : Z)
    (data : list lab_event) : scan_state :=
  foldl (scan_step lactate_items ph_items min_duration) scan_init data.

(** The list [episodes] once the loop over the sorted rows has ended. *)
Definition segment_episodes (lactate_items ph_items : list Z) (min_duration : Z)
    (data : list lab_event) : list episode :=
  episodes (scan lactate_items ph_items min_duration data).

(** Rows in chronological order, as [sort_values('charttime')] leaves them. *)
Definition chart_le (a b : lab_event) : Prop := charttime a ≤ charttime b.
Definition chronological (data : list lab_event) : Prop :=
  StronglySorted chart_le data.

#[global] Instance chart_le_dec : RelDecision chart_le.
Proof. intros a b. unfold chart_le. apply _. Defined.

(** ** Time *)

Definition minutes (n : Z) : Z := n * 60000000000.

(** [timedelta(minutes=120)], the default of [min_duration]. *)
Definition default_min_duration : Z := minutes 120.

(** [scheduletime > t] and [scheduletime < t] on a column that may hold [NaT]. *)
Definition ts_gt (a : option Z) (t : Z) : bool :=
  match a with Some x => bool_decide (t < x) | None => false end.
Definition ts_lt (a : option Z) (t : Z) : bool :=
  match a with Some x => bool_decide (x < t) | None => false end.

(** ** The medication loop (lines 167-175) *)

(** [vadrugs[vadrugs['subject_id'] == subject_id]]. *)
Definition subject_rows (vadrugs : list emar_row) (sid : Z) : list emar_row :=
  filter (λ d, drug_subject_id d = sid) vadrugs.

(** The boolean mask of lines 170-171 on one row. *)
Definition in_window (s e : Z) (d : emar_row) : bool :=
  ts_gt (scheduletime d) s && ts_lt (scheduletime d) e.

Definition meds_in_window (subject_drugs : list emar_row) (s e : Z) : list emar_row :=
  filter (λ d, in_window s e d = true) subject_drugs.

(** [frame.empty]. *)
Definition empty_frame {A} (rows : list A) : bool :=
  match rows with [] => true | _ => false end.

(** The loop [for start, end in episodes], threading [candidates]; the
    [break] of line 175 is the branch that does not recurse. *)
Fixpoint episode_loop (sid : Z) (subject_drugs : list emar_row)
    (eps : list episode) (candidates : list Z) : list Z :=
  match eps with
  | [] => candidates
  | (s, e) :: rest =>
      if negb (empty_frame (meds_in_window subject_drugs s e))
      then candidates ++ [sid]
      else episode_loop sid subject_drugs rest candidates
  end.

(** ** Grouping and the whole detection (lines 146-176) *)

(** [bp.groupby('subject_id')]: one group per distinct key, keys in
    ascending order, each group keeping its rows in frame order. *)
Definition group_keys (bp : list lab_event) : list Z :=
  merge_sort Z.le (elements (list_to_set (subject_id <$> bp) : gset Z)).

Definition groupby_subject_id (bp : list lab_event) : list (Z * list lab_event) :=
  (λ k, (k, filter (λ r, subject_id r = k) bp)) <$> group_keys bp.

Section Identify.

(** [sort_values('charttime')] is pandas' default sort, which is not
    stable: the order it gives to rows of equal [charttime] is left open,
    so the sort is a parameter here. *)
Context (sort_values : list lab_event → list lab_event).

(** The body of the loop over the groups, lines 148-175. *)
Definition subject_body (vadrugs : list emar_row)
    (lactate_items ph_items : list Z) (min_duration : Z)
    (candidates : list Z) (group : Z * list lab_event) : list Z :=
  let data := sort_values group.2 in
  let eps := segment_episodes lactate_items ph_items min_duration data in
  let subject_drugs := subject_rows vadrugs group.1 in
  episode_loop group.1 subject_drugs eps candidates.

Definition identify_acidosis_episodes (bp : list lab_event)
    (vadrugs : list emar_row) (lactate_items ph_items : list Z)
    (min_duration : Z) : list Z :=
  foldl (subject_body vadrugs lactate_items ph_items min_duration)
    [] (groupby_subject_id bp).

End Identify.

(** A sort to run the detection with: merge sort on [charttime]. *)
Definition sort_by_charttime (data : list lab_event) : list lab_event :=
  merge_sort chart_le data.

(** ** Exceptions *)

Inductive exn :=
  | BigQueryNotInstalled       (* the [RuntimeError] raised at line 53 *)
  | ZeroDivisionError
  | ClientError (what : string). (* an exception the BigQuery client raised *)

Inductive result (A : Type) :=
  | Return (a : A)
  | Raise (e : exn).
Arguments Return {A} a.
Arguments Raise {A} e.

#[global] Instance result_ret : MRet result := λ A a, Return a.
#[global] Instance result_bind : MBind result := λ A B k m,
  match m with
  | Return a => k a
  | Raise e => Raise e
  end.

(** ** [run_query] (lines 32-58) *)

(** What [client.query(query)], [job.result()] and [to_dataframe()] come to:
    the rows of a frame, or an exception of the client library. *)
Inductive client_answer (row : Type) :=
  | Answer (frame : list row)
  | Failure (what : string).
Arguments Answer {row} frame.
Arguments Failure {row} what.

Definition bq_client (row : Type) : Type := string → client_answer row.

(** [bigquery_installed] is false when the import of line 27 failed and
    [bigquery] is [None]. *)
Definition run_query {row} (bigquery_installed : bool)
    (client : bq_client row) (query : string) : result (list row) :=
  if negb bigquery_installed then Raise BigQueryNotInstalled
  else
    match client query with
    | Answer frame => Return frame
    | Failure what => Raise (ClientError what)
    end.

(** ** [evaluate_against_diagnosis] (lines 179-203) *)

Record diag_row := DiagRow {
  diag_subject_id : Z;
  icd_code : string
}.

(** The frame the function returns: its column labels and its rows
    [(subject_id, has_code)]. *)
Record cohort_frame := CohortFrame {
  columns : list string;
  rows : list (Z * bool)
}.

(** [list(set(subjects))]: the distinct subjects, each once.  Python leaves
    the order of a set open; the order of [elements] stands for it and is
    not the one CPython happens to give. *)
Definition py_set_list (subjects : list Z) : list Z :=
  elements (list_to_set subjects : gset Z).

Definition diag_query (subj_str icd : string) : string :=
  "
        SELECT subject_id, icd_code
        FROM `physionet-data.mimiciv_hosp.diagnoses_icd`
        WHERE subject_id IN (" +:+ subj_str +:+ ") AND icd_code LIKE '"
  +:+ icd +:+ "'
    ".

(** [left.merge(right, how='left', on='subject_id')]: the left rows in
    order, each paired with every right row of its key, or with a missing
    value when the key has none. *)
Definition merge_left (left : list Z) (right : list (Z * bool))
    : list (Z * option bool) :=
  left ≫= λ s,
    match filter (λ r, r.1 = s) right with
    | [] => [(s, None)]
    | matches => (λ r, (s, Some r.2)) <$> matches
    end.

Definition fillna (d : bool) (merged : list (Z * option bool)) : list (Z * bool) :=
  (λ r, (r.1, default d r.2)) <$> merged.

Definition evaluate_against_diagnosis (bigquery_installed : bool)
    (client : bq_client diag_row) (subjects : list Z) (icd : string)
    : result cohort_frame :=
  if empty_frame subjects then
    Return (CohortFrame ["subject_id"; "has_code"] [])
  else
    let subj_str := String.concat "," (pretty <$> py_set_list subjects) in
    diag_df ← run_query bigquery_installed client (diag_query subj_str icd);
    let with_code := (λ r, (diag_subject_id r, true)) <$> diag_df in
    let all_df := py_set_list subjects in
    let merged := merge_left all_df with_code in
    Return (CohortFrame ["subject_id"; "has_code"] (fillna false merged)).

(** ** The summary of [main] (lines 232-234) *)

(** [a / b] on Python integers. *)
Definition py_truediv (a b : Z) : result spec_float :=
  if bool_decide (b = 0) then Raise ZeroDivisionError
  else Return (PyFloat.truediv (PyFloat.of_int a) (PyFloat.of_int b)).

Definition total_subjects (results : cohort_frame) : Z :=
  Z.of_nat (length (rows results)).

(** [results['has_code'].sum()]. *)
Definition num_with_code (results : cohort_frame) : Z :=
  Z.of_nat (length (filter (λ r, r.2 = true) (rows results))).

Definition accuracy (results : cohort_frame) : result spec_float :=
  if bool_decide (0 < total_subjects results) then
    q ← py_truediv (num_with_code results) (total_subjects results);
    Return (PyFloat.mul q (PyFloat.of_int 100))
  else Return (S754_zero false).

(** ** The fetch functions (lines 61-127) *)

Definition lactate_query : string :=
  "
        SELECT itemid
        FROM `physionet-data.mimiciv_hosp.d_labitems`
        WHERE LOWER(label) LIKE '%lactate%'
    ".

Definition ph_query : string :=
  "
        SELECT itemid
        FROM `physionet-data.mimiciv_hosp.d_labitems`
        WHERE LOWER(label) LIKE '%ph%' AND LOWER(category) LIKE '%blood%'
    ".

(** The frames of the two queries have the single column [itemid]; the
    function returns the two columns as lists. *)
Definition get_lactate_ph_items (bigquery_installed : bool)
    (client : bq_client Z) : result (list Z * list Z) :=
  lactate_df ← run_query bigquery_installed client lactate_query;
  ph_df ← run_query bigquery_installed client ph_query;
  Return (lactate_df, ph_df).

Definition lab_events_query (items_str : string) : string :=
  "
        SELECT
            le.subject_id,
            le.hadm_id,
            le.charttime,
            le.itemid,
            le.valuenum AS measure_value
        FROM `physionet-data.mimiciv_hosp.labevents` le
        WHERE le.itemid IN (" +:+ items_str +:+ ")
          AND le.valuenum IS NOT NULL
    ".

Definition fetch_lab_events (bigquery_installed : bool)
    (client : bq_client lab_event) (lactate_items ph_items : list Z)
    : result (list lab_event) :=
  let items_str :=
    String.concat "," (pretty <$> py_set_list (lactate_items ++ ph_items)) in
  run_query bigquery_installed client (lab_events_query items_str).

Definition medications : list string :=
  [ "dopamine"; "milrinone"; "vasopressin"; "nitroglycerin"; "nitroprusside";
    "epinephrine"; "norepinephrine"; "levophed"; "dobutamine"; "hydralazine";
    "labetalol"; "methylene blue"; "terlipressin"; "angiotensin ii" ].

Definition drugs_query (meds_str : string) : string :=
  "
        SELECT subject_id, medication, scheduletime
        FROM `physionet-data.mimiciv_hosp.emar`
        WHERE LOWER(medication) IN (" +:+ meds_str +:+ ")
    ".

Definition fetch_vasoactive_drugs (bigquery_installed : bool)
    (client : bq_client emar_row) : result (list emar_row) :=
  let meds_str := String.concat "," ((λ m, "'" +:+ m +:+ "'") <$> medications) in
  run_query bigquery_installed client (drugs_query meds_str).

(** ** [main] (lines 206-237) *)

(** The one client of [main] answers queries of four schemas; each schema
    has its own typed view of it. *)
Record bq_service := BqService {
  items_client : bq_client Z;
  labs_client : bq_client lab_event;
  drugs_client : bq_client emar_row;
  diag_client : bq_client diag_row
}.

(** [bigquery.Client(project=project_id)] gives a client or raises. *)
Inductive connection :=
  | Connected (service : bq_service)
  | Refused (what : string).

(** The two [SystemExit]s of [main]: line 216 and line 222. *)
Inductive exit_reason :=
  | BigQueryMissing
  | ProjectUnset.

(** The three values [main] prints (their formatting is not modelled). *)
Record summary := Summary {
  printed_total : Z;
  printed_with_code : Z;
  printed_percentage : spec_float
}.

Inductive main_outcome :=
  | SystemExit (why : exit_reason)
  | Uncaught (e : exn)
  | Printed (out : summary).

(** Lines 227-234, the calls of [main] once it has its client. *)
Definition pipeline (sort_values : list lab_event → list lab_event)
    (bigquery_installed : bool) (service : bq_service) : result summary :=
  items ← get_lactate_ph_items bigquery_installed (items_client service);
  lab_events ← fetch_lab_events bigquery_installed (labs_client service) items.1 items.2;
  drugs ← fetch_vasoactive_drugs bigquery_installed (drugs_client service);
  let subjects :=
    identify_acidosis_episodes sort_values lab_events drugs items.1 items.2
      default_min_duration in
  results ← evaluate_against_diagnosis bigquery_installed (diag_client service)
              subjects "E872";
  acc ← accuracy results;
  Return (Summary (total_subjects results) (num_with_code results) acc).

(** [project] is [os.environ.get('GOOGLE_CLOUD_PROJECT')]; [not project_id]
    holds for [None] and for the empty string. *)
Definition main (sort_values : list lab_event → list lab_event)
    (bigquery_installed : bool) (project : option string)
    (connect : string → connection) : main_outcome :=
  if negb bigquery_installed then SystemExit BigQueryMissing
  else
    match project with
    | None => SystemExit ProjectUnset
    | Some project_id =>
        if bool_decide (project_id = "") then SystemExit ProjectUnset
        else
          match connect project_id with
          | Refused what => Uncaught (ClientError what)
          | Connected service =>
              match pipeline sort_values bigquery_installed service with
              | Raise e => Uncaught e
              | Return out => Printed out
              end
          end
    end.

(** Does the loop over the groups append subject [k]? *)
Definition subject_flagged (sort_values : list lab_event → list lab_event)
    (bp : list lab_event) (vadrugs : list emar_row)
    (lactate_items ph_items : list Z) (min_duration : Z) (k : Z) : bool :=
  negb (empty_frame
          (subject_body sort_values vadrugs lactate_items ph_items min_duration
             [] (k, filter (λ r, subject_id r = k) bp))).

(** ** Predicates the statements use *)

(** [(s, e)] is a closed run of [data]: a block of abnormal rows that starts
    at time [s], followed by a normal row at time [e]. *)
Definition closed_run (lactate_items ph_items : list Z)
    (data : list lab_event) (ep : episode) : Prop :=
  ∃ pre first run closer post,
    data = pre ++ first :: run ++ closer :: post ∧
    Forall (λ r, record_abnormal lactate_items ph_items r = true) (first :: run) ∧
    record_abnormal lactate_items ph_items closer = false ∧
    ep.1 = charttime first ∧ ep.2 = charttime closer.

(** A run is open at the end of [data]: its last rows, from one at time [s]
    on, are all abnormal. *)
Definition open_run (lactate_items ph_items : list Z)
    (data : list lab_event) (s : Z) : Prop :=
  ∃ pre first run,
    data = pre ++ first :: run ∧
    Forall (λ r, record_abnormal lactate_items ph_items r = true) (first :: run) ∧
    s = charttime first.

(** Episodes listed by ascending start. *)
Definition time_ordered (eps : list episode) : Prop :=
  StronglySorted (λ a b : episode, a.1 ≤ b.1) eps.

(** Every episode ends at or before the start of each later one. *)
Definition ends_before_next (eps : list episode) : Prop :=
  StronglySorted (λ a b : episode, a.2 ≤ b.1) eps.

(** No two rows of the stream have the same [charttime]: the rows are in
    strictly ascending order of time. *)
Definition tie_free (data : list lab_event) : Prop :=
  StronglySorted (λ a b, charttime a < charttime b) data.

(** Episode [a] ends at a normal row of the stream and episode [b] starts at
    an abnormal row that comes later in the stream. *)
Definition separated_by_rows (lactate_items ph_items : list Z)
    (data : list lab_event) (a b : episode) : Prop :=
  ∃ pre x mid y post,
    data = pre ++ x :: mid ++ y :: post ∧
    record_abnormal lactate_items ph_items x = false ∧
    record_abnormal lactate_items ph_items y = true ∧
    a.2 = charttime x ∧ b.1 = charttime y.

(** Each episode ends strictly before the start of the next one. *)
Definition strictly_separated (eps : list episode) : Prop :=
  Sorted (λ a b : episode, a.2 < b.1) eps.

(** Some administration of [subject_drugs] falls strictly inside some
    episode of [eps]. *)
Definition strictly_inside (eps : list episode) (subject_drugs : list emar_row) : Prop :=
  ∃ s e d t, (s, e) ∈ eps ∧ d ∈ subject_drugs ∧
    scheduletime d = Some t ∧ s < t ∧ t < e.

(** The rows [pre] read so far leave no run open: there is none, or the
    last one is normal. *)
Definition run_boundary (lactate_items ph_items : list Z)
    (pre : list lab_event) : Prop :=
  pre = [] ∨ ∃ pre' r, pre = pre' ++ [r] ∧
    record_abnormal lactate_items ph_items r = false.

(** [ep] is a maximal closed run of [data]: a block of abnormal rows that
    nothing abnormal precedes, from its first row to the normal row after
    it. *)
Definition maximal_closed_run (lactate_items ph_items : list Z)
    (data : list lab_event) (ep : episode) : Prop :=
  ∃ pre first run closer post,
    data = pre ++ first :: run ++ closer :: post ∧
    run_boundary lactate_items ph_items pre ∧
    Forall (λ r, record_abnormal lactate_items ph_items r = true) (first :: run) ∧
    record_abnormal lactate_items ph_items closer = false ∧
    ep = (charttime first, charttime closer).

(** ** Sample data *)

Definition lactate_ids : list Z := [50813].
Definition ph_ids : list Z := [50820].

(** A blood-gas sample at minute 130 reports a normal lactate and an
    abnormal pH: the first episode ends when the second starts. *)
Definition tied_stream : list lab_event :=
  [ LabEvent 1 (minutes 0) 50813 (PyFloat.of_decimal 50 10);
    LabEvent 1 (minutes 130) 50813 (PyFloat.of_decimal 30 10);
    LabEvent 1 (minutes 130) 50820 (PyFloat.of_decimal 720 100);
    LabEvent 1 (minutes 300) 50820 (PyFloat.of_decimal 740 100) ].

(** Two lactate runs, from minute 0 to 130 and from minute 200 to 400, on
    rows of distinct times. *)
Definition two_runs_stream : list lab_event :=
  [ LabEvent 1 (minutes 0) 50813 (PyFloat.of_decimal 50 10);
    LabEvent 1 (minutes 130) 50813 (PyFloat.of_decimal 30 10);
    LabEvent 1 (minutes 200) 50813 (PyFloat.of_decimal 60 10);
    LabEvent 1 (minutes 400) 50813 (PyFloat.of_decimal 20 10) ].

(** The scenario of one subject with lactate 2.0, 5.0, 6.0, 3.0 at minutes
    0, 10, 130 and 140. *)
Definition lactate_stream : list lab_event :=
  [ LabEvent 1 (minutes 0) 50813 (PyFloat.of_decimal 20 10);
    LabEvent 1 (minutes 10) 50813 (PyFloat.of_decimal 50 10);
    LabEvent 1 (minutes 130) 50813 (PyFloat.of_decimal 60 10);
    LabEvent 1 (minutes 140) 50813 (PyFloat.of_decimal 30 10) ].

(** Two more abnormal readings after [lactate_stream], never resolved. *)
Definition unresolved_tail : list lab_event :=
  [ LabEvent 1 (minutes 200) 50813 (PyFloat.of_decimal 80 10);
    LabEvent 1 (minutes 400) 50820 (PyFloat.of_decimal 710 100) ].

(** The scenario of an episode from 10:00 to 13:00, with administrations at
    09:30 and 13:30, at both bounds, and one without a schedule time. *)
Definition window_episodes : list episode := [(minutes 600, minutes 780)].

Definition outside_drugs : list emar_row :=
  [ EmarRow 1 "norepinephrine" (Some (minutes 570));
    EmarRow 1 "vasopressin" (Some (minutes 810));
    EmarRow 1 "dopamine" (Some (minutes 600));
    EmarRow 1 "dobutamine" (Some (minutes 780));
    EmarRow 1 "milrinone" None ].

Definition inside_drugs : list emar_row :=
  [ EmarRow 1 "norepinephrine" (Some (minutes 570));
    EmarRow 1 "epinephrine" (Some (minutes 660)) ].

(** A diagnosis table in which subject 7 carries the code on two
    admissions; the client answers every query with its rows. *)
Definition two_admissions : list diag_row :=
  [ DiagRow 7 "E872"; DiagRow 7 "E872" ].

Definition two_admissions_client : bq_client diag_row :=
  λ _, Answer two_admissions.

(** The scenario of candidates 1, 2, 3 of which only 1 has the code. *)
Definition one_coded_client : bq_client diag_row :=
  λ _, Answer [ DiagRow 1 "E872" ].

(** Two subjects: subject 1 has the readings of [lactate_stream], subject 2
    a run of 90 minutes; each receives a vasoactive drug during the run. *)
Definition two_subjects : list lab_event :=
  [ LabEvent 2 (minutes 0) 50813 (PyFloat.of_decimal 50 10);
    LabEvent 2 (minutes 90) 50813 (PyFloat.of_decimal 30 10) ] ++ lactate_stream.

Definition pressor_drugs : list emar_row :=
  [ EmarRow 1 "norepinephrine" (Some (minutes 60));
    EmarRow 2 "vasopressin" (Some (minutes 45)) ].

(** A client for a whole run of [main]: one lactate and one pH item, the
    rows of [two_subjects], the administrations of [pressor_drugs], and the
    code on one admission of subject 1. *)
Definition sample_service : bq_service :=
  BqService
    (λ q, if bool_decide (q = lactate_query) then Answer lactate_ids else Answer ph_ids)
    (λ _, Answer two_subjects)
    (λ _, Answer pressor_drugs)
    one_coded_client.

(** * Properties *)

(** ** The abnormality test *)

Lemma py_in_true x items : py_in x items = true ↔ x ∈ items.
Proof. unfold py_in. apply bool_decide_eq_true. Qed.

Lemma py_in_false x items : py_in x items = false ↔ x ∉ items.
Proof. unfold py_in. apply bool_decide_eq_false. Qed.

(** The boolean test, read as a proposition. *)
Lemma is_abnormal_iff (lactate_items ph_items : list Z) (item : Z) (value : spec_float) :
  (is_abnormal lactate_items ph_items item value = true ↔
     (item ∈ lactate_items ∧ PyFloat.gt value lactate_threshold = true) ∨
     (item ∈ ph_items ∧ PyFloat.le value ph_threshold = true)) ∧
  (item ∉ lactate_items → item ∉ ph_items →
     is_abnormal lactate_items ph_items item value = false).
Proof.
  unfold is_abnormal. split.
  - rewrite orb_true_iff, !andb_true_iff, !py_in_true. tauto.
  - intros Hl Hp. apply py_in_false in Hl, Hp. rewrite Hl, Hp. reflexivity.
Qed.

(** A mantissa of [d] binary digits lies between [2 ^ (d - 1)] and [2 ^ d]. *)
Lemma digits2_pos_bounds (m : positive) :
  2 ^ (Zpos (digits2_pos m) - 1) ≤ Zpos m < 2 ^ Zpos (digits2_pos m).
Proof.
  induction m as [m IH|m IH|]; simpl digits2_pos.
  - change (PosDef.Pos.succ (digits2_pos m)) with (Pos.succ (digits2_pos m)).
    rewrite Pos2Z.inj_succ.
    replace (Z.succ (Zpos (digits2_pos m)) - 1)
      with (Z.succ (Zpos (digits2_pos m) - 1)) by lia.
    rewrite !Z.pow_succ_r by lia. lia.
  - change (PosDef.Pos.succ (digits2_pos m)) with (Pos.succ (digits2_pos m)).
    rewrite Pos2Z.inj_succ.
    replace (Z.succ (Zpos (digits2_pos m)) - 1)
      with (Z.succ (Zpos (digits2_pos m) - 1)) by lia.
    rewrite !Z.pow_succ_r by lia. lia.
  - simpl. lia.
Qed.

(** A binary64 mantissa has at most 53 digits, and exactly 53 above the
    least exponent. *)
Lemma binary64_mantissa (m : positive) (e : Z) :
  bounded 53 1024 m e = true →
  Zpos m < 2 ^ 53 ∧ (-1074 < e → 2 ^ 52 ≤ Zpos m).
Proof.
  unfold bounded, canonical_mantissa, fexp, emin.
  intros [Hc He]%andb_true_iff.
  apply Z.eqb_eq in Hc. apply Z.leb_le in He.
  pose proof (digits2_pos_bounds m) as [Hlo Hhi].
  set (d := Zpos (digits2_pos m)) in *.
  assert (Hd : d ≤ 53) by lia.
  split.
  - assert (2 ^ d ≤ 2 ^ 53) by (apply Z.pow_le_mono_r; lia). lia.
  - intros Hn. assert (d = 53) by lia. replace (d - 1) with 52 in Hlo by lia. lia.
Qed.

Lemma compare_cont_lt (a m : positive) :
  match PosDef.Pos.compare_cont Eq a m with Lt => true | _ => false end = true
  ↔ Zpos a < Zpos m.
Proof.
  change (PosDef.Pos.compare_cont Eq a m) with (a ?= m)%positive.
  destruct (Pos.compare_spec a m); split; try done; lia.
Qed.

Lemma compare_cont_le (m b : positive) :
  match PosDef.Pos.compare_cont Eq m b with Gt => false | _ => true end = true
  ↔ Zpos m ≤ Zpos b.
Proof.
  change (PosDef.Pos.compare_cont Eq m b) with (m ?= b)%positive.
  destruct (Pos.compare_spec m b); split; try done; lia.
Qed.

Lemma scaled_pos (m : positive) (e : Z) : (0 < scaled m e)%Q.
Proof. unfold scaled, Qlt. destruct e as [|p|p]; cbn [Qnum Qden]; lia. Qed.

(** Where a binary64 mantissa and exponent lie with respect to 4 and 8:
    the floats of exponent -50 are those of the interval from 4 to 8. *)
Lemma scaled_regimes (m : positive) (e : Z) :
  bounded 53 1024 m e = true →
  (e < -50 → (scaled m e < 4)%Q) ∧
  (e = -50 → scaled m e = Zpos m # 1125899906842624) ∧
  (-50 < e → (8 <= scaled m e)%Q).
Proof.
  intros Hb. destruct (binary64_mantissa m e Hb) as [Hhi Hlo].
  split_and!.
  - intros He. destruct e as [|p|p]; try lia.
    unfold scaled, Qlt. cbn [Qnum Qden]. rewrite Pos2Z.inj_pow.
    assert (2 ^ 51 ≤ 2 ^ Zpos p) by (apply Z.pow_le_mono_r; lia). lia.
  - intros ->. reflexivity.
  - intros He. specialize (Hlo ltac:(lia)).
    destruct e as [|p|p]; unfold scaled, Qle; cbn [Qnum Qden].
    + lia.
    + assert (0 < 2 ^ Zpos p) by (apply Z.pow_pos_nonneg; lia). nia.
    + rewrite Pos2Z.inj_pow.
      assert (2 ^ Zpos p ≤ 2 ^ 49) by (apply Z.pow_le_mono_r; lia). lia.
Qed.

(** On binary64 values the test [value > 4.0] of line 155 holds exactly of
    the values greater than 4. *)
Lemma gt_lactate_threshold (value : spec_float) :
  is_binary64 value →
  PyFloat.gt value lactate_threshold = true ↔ exceeds (float_value_of value) 4.
Proof.
  unfold is_binary64, PyFloat.prec, PyFloat.emax, PyFloat.gt, SFltb, lactate_threshold.
  destruct value as [sg|sg| |sg m e]; simpl valid_binary; intros Hb.
  - destruct sg; simpl; split; try done; intros H; by vm_compute in H.
  - destruct sg; simpl; split; done.
  - simpl. split; done.
  - destruct sg.
    + simpl. split; [done|]. pose proof (scaled_pos m e) as Hp.
      unfold Qlt in *. cbn [Qnum Qden Qopp] in *. lia.
    + destruct (scaled_regimes m e Hb) as (Hlow & Heq & Hhigh).
      unfold SFcompare. cbn [float_value_of exceeds].
      destruct (Z.compare_spec (-50) e) as [He|He|He].
      * subst e. rewrite compare_cont_lt, (Heq eq_refl).
        unfold Qlt. cbn [Qnum Qden]. lia.
      * split; [intros _|done]. specialize (Hhigh He).
        unfold Qlt, Qle in *. cbn [Qnum Qden] in *. lia.
      * split; [done|]. specialize (Hlow He).
        unfold Qlt in *. cbn [Qnum Qden] in *. lia.
Qed.

(** On binary64 values the test [value <= 7.35] of line 156 holds exactly
    of the values that are at most 7.35: the literal is rounded down to the
    float below 7.35, and no float lies between the two. *)
Lemma le_ph_threshold (value : spec_float) :
  is_binary64 value →
  PyFloat.le value ph_threshold = true ↔ at_most (float_value_of value) (735 # 100).
Proof.
  unfold is_binary64, PyFloat.prec, PyFloat.emax, PyFloat.le, SFleb, ph_threshold.
  destruct value as [sg|sg| |sg m e]; simpl valid_binary; intros Hb.
  - destruct sg; simpl; split; try done; intros _; by vm_compute.
  - destruct sg; simpl; split; done.
  - simpl. split; done.
  - destruct sg.
    + simpl. split; [intros _|done]. pose proof (scaled_pos m e) as Hp.
      unfold Qlt, Qle in *. cbn [Qnum Qden Qopp] in *. lia.
    + destruct (scaled_regimes m e Hb) as (Hlow & Heq & Hhigh).
      unfold SFcompare. cbn [float_value_of at_most].
      destruct (Z.compare_spec e (-50)) as [He|He|He].
      * subst e. rewrite compare_cont_le, (Heq eq_refl).
        unfold Qle. cbn [Qnum Qden]. lia.
      * split; [intros _|done]. specialize (Hlow He).
        unfold Qlt, Qle in *. cbn [Qnum Qden] in *. lia.
      * split; [done|]. specialize (Hhigh He).
        unfold Qle in *. cbn [Qnum Qden] in *. lia.
Qed.

(** C3: for every item and every binary64 value, the measurement is
    abnormal exactly when its item is a lactate item and the number the
    value stands for is greater than 4, or its item is a pH item and that
    number is at most 7.35; an item in neither list is normal whatever the
    value. *)
Theorem is_abnormal_thresholds (lactate_items ph_items : list Z)
    (item : Z) (value : spec_float) :
  is_binary64 value →
  (is_abnormal lactate_items ph_items item value = true ↔
     (item ∈ lactate_items ∧ exceeds (float_value_of value) 4) ∨
     (item ∈ ph_items ∧ at_most (float_value_of value) (735 # 100))) ∧
  (item ∉ lactate_items → item ∉ ph_items →
     is_abnormal lactate_items ph_items item value = false).
Proof.
  intros Hv.
  destruct (is_abnormal_iff lactate_items ph_items item value) as [Hiff Hnone].
  split; [|done].
  rewrite Hiff, (gt_lactate_threshold value Hv), (le_ph_threshold value Hv). done.
Qed.

(** At the bounds: a pH of exactly 7.35 is abnormal, a lactate of exactly
    4.0 is not. *)
Lemma is_abnormal_thresholds_witness :
  is_abnormal [50813] [50820] 50820 (PyFloat.of_decimal 735 100) = true ∧
  is_abnormal [50813] [50820] 50813 (PyFloat.of_decimal 4 1) ≠ true.
Proof.
  split.
  - apply (proj1 (is_abnormal_thresholds [50813] [50820] 50820
                    (PyFloat.of_decimal 735 100) eq_refl)).
    right. split; [by left|]. vm_compute. discriminate.
  - intros Hab.
    apply (proj1 (is_abnormal_thresholds [50813] [50820] 50813
                    (PyFloat.of_decimal 4 1) eq_refl)) in Hab
      as [[_ Hgt]|[Hin _]].
    + vm_compute in Hgt. discriminate.
    + apply list_elem_of_singleton in Hin. discriminate.
Defined.

(** Between two mantissas [a ≤ b] of one exponent there is no gap. *)
Lemma mantissa_cover (a b m : positive) :
  (a ≤ b)%positive →
  match PosDef.Pos.compare_cont Eq a m with Lt => true | _ => false end
  || match PosDef.Pos.compare_cont Eq m b with Gt => false | _ => true end = true.
Proof.
  intros Hab.
  change (PosDef.Pos.compare_cont Eq a m) with (a ?= m)%positive.
  change (PosDef.Pos.compare_cont Eq m b) with (m ?= b)%positive.
  destruct (Pos.compare_spec a m) as [H1|H1|H1]; [|reflexivity|];
    destruct (Pos.compare_spec m b) as [H2|H2|H2]; try reflexivity; lia.
Qed.

(** The two thresholds leave no gap: every float but NaN is above 4.0 or at
    most 7.35. *)
Lemma thresholds_cover (value : spec_float) :
  value ≠ S754_nan →
  PyFloat.gt value lactate_threshold || PyFloat.le value ph_threshold = true.
Proof.
  intros Hnan. unfold PyFloat.gt, PyFloat.le, SFltb, SFleb.
  destruct value as [sg|sg| |sg m e]; [destruct sg; reflexivity ..|congruence|].
  destruct sg; [reflexivity|].
  unfold lactate_threshold, ph_threshold, SFcompare.
  rewrite (Z.compare_antisym e (-50)).
  destruct (Z.compare_spec e (-50)) as [He|He|He]; cbn [CompOpp]; try reflexivity.
  apply mantissa_cover. intros H. vm_compute in H. discriminate H.
Qed.

(** A missing value (NaN) is never abnormal. *)
Lemma nan_is_normal (lactate_items ph_items : list Z) (item : Z) :
  is_abnormal lactate_items ph_items item S754_nan = false.
Proof. unfold is_abnormal. rewrite !andb_false_r. reflexivity. Qed.

(** C9: for an item listed both as lactate and as pH, every numeric value
    (every float but NaN) is abnormal, so a row of such an item opens a run
    or leaves the open run open, and appends no episode. *)
Theorem item_in_both_lists_always_abnormal
    (lactate_items ph_items : list Z) (item : Z) (value : spec_float) :
  item ∈ lactate_items → item ∈ ph_items → value ≠ S754_nan →
  is_abnormal lactate_items ph_items item value = true ∧
  ∀ (min_duration : Z) (st : scan_state) (r : lab_event),
    itemid r = item → measure_value r = value →
    let st' := scan_step lactate_items ph_items min_duration st r in
    is_Some (start st') ∧ episodes st' = episodes st ∧
    (is_Some (start st) → st' = st).
Proof.
  intros Hl Hp Hnan.
  assert (Hab : is_abnormal lactate_items ph_items item value = true).
  { unfold is_abnormal. apply py_in_true in Hl, Hp. rewrite Hl, Hp. simpl.
    apply thresholds_cover, Hnan. }
  split; [exact Hab|].
  intros md st r Hi Hv. unfold scan_step, record_abnormal.
  rewrite Hi, Hv, Hab. destruct (start st) as [s|] eqn:Hs; simpl.
  - rewrite Hs. split_and!; eauto.
  - split_and!; eauto. intros [? ?]; discriminate.
Qed.

Lemma item_in_both_lists_always_abnormal_witness :
  is_abnormal [50813] [50813; 50820] 50813 (PyFloat.of_int 5) = true.
Proof.
  apply (item_in_both_lists_always_abnormal [50813] [50813; 50820] 50813 (PyFloat.of_int 5)).
  - apply list_elem_of_In. simpl. auto.
  - apply list_elem_of_In. simpl. auto.
  - discriminate.
Defined.

(** ** The segmentation loop *)

Section Segmentation.

Context (lactate_items ph_items : list Z) (min_duration : Z).

Local Abbreviation abnormal := (record_abnormal lactate_items ph_items).
Local Abbreviation step := (scan_step lactate_items ph_items min_duration).
Local Abbreviation scan_rows := (scan lactate_items ph_items min_duration).
Local Abbreviation segment := (segment_episodes lactate_items ph_items min_duration).
Local Abbreviation closed := (closed_run lactate_items ph_items).
Local Abbreviation opened := (open_run lactate_items ph_items).

Lemma scan_snoc data r : scan_rows (data ++ [r]) = step (scan_rows data) r.
Proof. unfold scan. apply foldl_snoc. Qed.

Lemma scan_step_abnormal st r :
  abnormal r = true →
  episodes (step st r) = episodes st ∧
  (start st = None → start (step st r) = Some (charttime r)) ∧
  (∀ s, start st = Some s → start (step st r) = Some s).
Proof.
  intros Hr. unfold scan_step. rewrite Hr.
  destruct (start st) as [s|] eqn:Hs; simpl; split_and!; try done.
  intros s' Hs'. rewrite Hs. done.
Qed.

Lemma closed_run_snoc data r ep : closed data ep → closed (data ++ [r]) ep.
Proof.
  intros (pre & first & run & closer & post & -> & Hrun & Hc & Hs & He).
  exists pre, first, run, closer, (post ++ [r]). split_and!; try done.
  rewrite <- !app_assoc, <- !app_comm_cons, <- !app_assoc, <- !app_comm_cons. done.
Qed.

Lemma open_run_snoc data r s :
  abnormal r = true → opened data s → opened (data ++ [r]) s.
Proof.
  intros Hr (pre & first & run & -> & Hrun & Hs).
  exists pre, first, (run ++ [r]). split_and!; try done.
  - rewrite <- !app_assoc, <- !app_comm_cons. done.
  - rewrite app_comm_cons. apply Forall_app. split; [done|]. by constructor.
Qed.

Lemma open_run_close data r s :
  abnormal r = false → opened data s → closed (data ++ [r]) (s, charttime r).
Proof.
  intros Hr (pre & first & run & -> & Hrun & Hs).
  exists pre, first, run, r, []. split_and!; try done.
  rewrite <- !app_assoc, <- !app_comm_cons. done.
Qed.

(** What the loop has established after the rows [data]. *)
Lemma scan_invariant data :
  Forall (λ ep, closed data ep ∧ min_duration ≤ ep.2 - ep.1)
    (episodes (scan_rows data)) ∧
  (∀ s, start (scan_rows data) = Some s → opened data s).
Proof.
  induction data as [|r data [IHe IHs]] using rev_ind.
  - split; [constructor | intros s; discriminate].
  - rewrite scan_snoc.
    assert (Hext : Forall (λ ep, closed (data ++ [r]) ep ∧ min_duration ≤ ep.2 - ep.1)
              (episodes (scan_rows data))).
    { eapply Forall_impl; [exact IHe|]. intros ep [? ?]. split; [|done].
      by apply closed_run_snoc. }
    unfold scan_step. destruct (abnormal r) eqn:Hr.
    + destruct (start (scan_rows data)) as [s|] eqn:Hs; simpl.
      * split; [done|]. intros s' Hs'. rewrite Hs in Hs'.
        apply open_run_snoc; [done|]. apply IHs. done.
      * split; [done|]. intros s' [= <-].
        exists data, r, []. split_and!; try done. by repeat constructor.
    + destruct (start (scan_rows data)) as [s|] eqn:Hs; simpl.
      * split; [|intros ?; discriminate].
        case_bool_decide as Hd; [|done].
        apply Forall_app. split; [done|]. constructor; [|constructor].
        split; [|done]. apply open_run_close; [done|]. by apply IHs.
      * split; [done|]. intros s'. rewrite Hs. discriminate.
Qed.

(** Abnormal rows at the end of the stream add no episode. *)
Lemma segment_abnormal_tail data tail :
  Forall (λ r, abnormal r = true) tail → segment (data ++ tail) = segment data.
Proof.
  intros Htail. revert data.
  induction Htail as [|r tail Hr _ IH]; intros data.
  - by rewrite app_nil_r.
  - rewrite (cons_middle r data tail), app_assoc, IH.
    unfold segment_episodes. rewrite scan_snoc.
    by apply scan_step_abnormal.
Qed.

(** C1: every emitted episode lasts at least [min_duration] and is closed
    by a normal row of the stream; a run still abnormal when the stream
    ends emits nothing. *)
Theorem segment_episodes_min_duration_and_closed (data : list lab_event) :
  Forall (λ ep, min_duration ≤ ep.2 - ep.1 ∧ closed data ep) (segment data) ∧
  ∀ tail, Forall (λ r, abnormal r = true) tail →
    segment (data ++ tail) = segment data.
Proof.
  split.
  - eapply Forall_impl; [apply (scan_invariant data)|]. intros ep [? ?]. done.
  - intros tail. apply segment_abnormal_tail.
Qed.

(** The end of an emitted episode and the start of an open run are times
    of rows already read. *)
Lemma closed_run_end_in data ep :
  closed data ep → ∃ x, x ∈ data ∧ ep.2 = charttime x.
Proof.
  intros (pre & first & run & closer & post & -> & _ & _ & _ & He).
  exists closer. split; [|done]. set_solver.
Qed.

Lemma open_run_start_in data s :
  opened data s → ∃ x, x ∈ data ∧ s = charttime x.
Proof.
  intros (pre & first & run & -> & _ & Hs). exists first. split; [|done]. set_solver.
Qed.

(** On a chronological stream the episodes never overlap, and all of them
    end at or before the start of the run that is open. *)
Lemma scan_ordered data :
  chronological data →
  ends_before_next (episodes (scan_rows data)) ∧
  Forall (λ ep : episode, ep.1 ≤ ep.2) (episodes (scan_rows data)) ∧
  (∀ s, start (scan_rows data) = Some s →
     Forall (λ ep : episode, ep.2 ≤ s) (episodes (scan_rows data))).
Proof.
  induction data as [|r data IH] using rev_ind; intros Hsorted.
  - split_and!; [constructor | constructor | intros s; discriminate].
  - apply StronglySorted_app in Hsorted as (Hle & Hdata & _).
    destruct (IH Hdata) as (IHa & IHb & IHd).
    destruct (scan_invariant data) as [Hclosed Hopen].
    assert (Hlast : ∀ x, x ∈ data → charttime x ≤ charttime r).
    { intros x Hx. apply (Hle x r); [done|]. by apply list_elem_of_singleton. }
    rewrite scan_snoc. unfold scan_step. destruct (abnormal r) eqn:Hr.
    + destruct (start (scan_rows data)) as [s|] eqn:Hs; simpl.
      * split_and!; try done. rewrite Hs. done.
      * split_and!; try done. intros s' [= <-].
        eapply Forall_impl; [exact Hclosed|]. intros ep [Hep _].
        apply closed_run_end_in in Hep as (x & Hx & ->). by apply Hlast.
    + destruct (start (scan_rows data)) as [s|] eqn:Hs; simpl.
      * assert (Hse : s ≤ charttime r).
        { destruct (open_run_start_in data s) as (x & Hx & ->); [by apply Hopen|].
          by apply Hlast. }
        split_and!; [| |intros ?; discriminate].
        -- case_bool_decide; [|done]. apply StronglySorted_app. split_and!.
           ++ intros a b Ha Hb. apply list_elem_of_singleton in Hb as ->. simpl.
              specialize (IHd s eq_refl). rewrite Forall_forall in IHd. by apply IHd.
           ++ done.
           ++ repeat constructor.
        -- case_bool_decide; [|done]. apply Forall_app. split; [done|].
           by repeat constructor.
      * split_and!; try done. rewrite Hs. done.
Qed.

Lemma ends_before_next_time_ordered (eps : list episode) :
  ends_before_next eps → Forall (λ ep : episode, ep.1 ≤ ep.2) eps → time_ordered eps.
Proof.
  unfold ends_before_next, time_ordered. intros Hs.
  induction Hs as [|a eps Hs IH Ha]; intros Hall; [constructor|].
  apply Forall_cons in Hall as [Hab Hall]. constructor; [by apply IH|].
  rewrite Forall_forall in Ha |- *. intros b Hb. specialize (Ha b Hb). simpl in *. lia.
Qed.

Lemma StronglySorted_weaken {A} (R R' : relation A) (l : list A) :
  (∀ x y, R x y → R' x y) → StronglySorted R l → StronglySorted R' l.
Proof.
  intros Himp Hs. induction Hs as [|x l Hs IH Hall]; constructor; [done|].
  eapply Forall_impl; [exact Hall|]. intros y. apply Himp.
Qed.

Lemma separated_by_rows_snoc data r a b :
  separated_by_rows lactate_items ph_items data a b →
  separated_by_rows lactate_items ph_items (data ++ [r]) a b.
Proof.
  intros (pre & x & mid & y & post & -> & Hx & Hy & Ha & Hb).
  exists pre, x, mid, y, (post ++ [r]). split_and!; try done.
  rewrite <- !app_assoc, <- !app_comm_cons, <- !app_assoc, <- !app_comm_cons. done.
Qed.

(** Whatever the order of the rows: every episode ends at a normal row, the
    open run starts at an abnormal row after all of these, and of two
    episodes the later starts at an abnormal row that follows the normal row
    at which the earlier ends. *)
Lemma scan_separated data :
  StronglySorted (separated_by_rows lactate_items ph_items data)
    (episodes (scan_rows data)) ∧
  Forall (λ a : episode, ∃ pre x post,
            data = pre ++ x :: post ∧ abnormal x = false ∧ a.2 = charttime x)
    (episodes (scan_rows data)) ∧
  (∀ s, start (scan_rows data) = Some s →
     ∃ pre y run, data = pre ++ y :: run ∧ abnormal y = true ∧ s = charttime y ∧
       Forall (λ a : episode, ∃ pre' x mid,
                 pre = pre' ++ x :: mid ∧ abnormal x = false ∧ a.2 = charttime x)
         (episodes (scan_rows data))).
Proof.
  induction data as [|r data (IHs & IHe & IHo)] using rev_ind.
  - split_and!; [constructor|constructor|intros s; discriminate].
  - assert (Hs' : StronglySorted (separated_by_rows lactate_items ph_items (data ++ [r]))
                    (episodes (scan_rows data))).
    { eapply StronglySorted_weaken; [|exact IHs]. intros a b.
      apply separated_by_rows_snoc. }
    assert (He' : Forall (λ a : episode, ∃ pre x post,
                     data ++ [r] = pre ++ x :: post ∧ abnormal x = false ∧
                     a.2 = charttime x) (episodes (scan_rows data))).
    { eapply Forall_impl; [exact IHe|]. intros a (pre & x & post & -> & Hx & Ha).
      exists pre, x, (post ++ [r]). split_and!; try done.
      by rewrite <- app_assoc, <- app_comm_cons. }
    rewrite scan_snoc. unfold scan_step. destruct (abnormal r) eqn:Hr.
    + destruct (start (scan_rows data)) as [s|] eqn:Hs; simpl.
      * split_and!; try done. intros s' Hs'0. rewrite Hs in Hs'0.
        destruct (IHo s' Hs'0) as (pre & y & run & -> & Hy & -> & Hall).
        exists pre, y, (run ++ [r]). split_and!; try done.
        by rewrite <- app_assoc, <- app_comm_cons.
      * split_and!; try done. intros s' [= <-].
        exists data, r, []. split_and!; done.
    + destruct (start (scan_rows data)) as [s|] eqn:Hs; simpl.
      * destruct (IHo s eq_refl) as (pre & y & run & Hdata & Hy & Hsy & Hall).
        split_and!; [| |intros ?; discriminate].
        -- case_bool_decide; [|done]. apply StronglySorted_app. split_and!.
           ++ intros a b Ha Hb. apply list_elem_of_singleton in Hb as ->.
              rewrite Forall_forall in Hall.
              destruct (Hall a Ha) as (pre' & x & mid & Hpre & Hx & Hax).
              exists pre', x, mid, y, (run ++ [r]).
              split_and!; [|done|done|done|by simpl].
              rewrite Hdata, Hpre.
              rewrite <- !app_assoc, <- !app_comm_cons. by rewrite <- ?app_assoc.
           ++ done.
           ++ repeat constructor.
        -- case_bool_decide; [|done]. apply Forall_app. split; [done|].
           constructor; [|constructor]. by exists data, r, [].
      * split_and!; try done. rewrite Hs. done.
Qed.

(** In a stream sorted by [R] on the times, a row and a later row are in
    [R]. *)
Lemma rows_in_order (R : relation Z) pre x mid y post :
  StronglySorted (λ a b, R (charttime a) (charttime b))
    (pre ++ x :: mid ++ y :: post) →
  R (charttime x) (charttime y).
Proof.
  intros (_ & _ & Hs)%StronglySorted_app.
  apply StronglySorted_inv in Hs as [_ Hall].
  rewrite Forall_forall in Hall. apply Hall.
  apply elem_of_app. right. by left.
Qed.

Lemma separated_by_rows_order (R : relation Z) data a b :
  StronglySorted (λ u v, R (charttime u) (charttime v)) data →
  separated_by_rows lactate_items ph_items data a b → R a.2 b.1.
Proof.
  intros Hs (pre & x & mid & y & post & -> & _ & _ & -> & ->).
  by eapply rows_in_order.
Qed.

(** C4: on a chronological stream the episodes come in time order and do
    not overlap: each one ends at or before the start of every later one,
    and none ends before it starts.  Of two episodes the earlier ends at a
    normal row and the later starts at an abnormal row further on in the
    stream, so the end and the start can only be equal when these two rows
    have the same time; on a stream with no two rows of the same time every
    episode ends strictly before the next one starts. *)
Theorem segment_episodes_ordered_disjoint (data : list lab_event) :
  chronological data →
  time_ordered (segment data) ∧
  ends_before_next (segment data) ∧
  Forall (λ ep : episode, ep.1 ≤ ep.2) (segment data) ∧
  StronglySorted (separated_by_rows lactate_items ph_items data) (segment data) ∧
  (tie_free data →
     strictly_separated (segment data) ∧
     StronglySorted (λ a b : episode, a.2 < b.1) (segment data)).
Proof.
  intros Hsorted. destruct (scan_ordered data Hsorted) as (Ha & Hb & _).
  destruct (scan_separated data) as (Hsep & _ & _).
  split_and!; try done; [by apply ends_before_next_time_ordered|].
  intros Hfree.
  assert (Hstrict : StronglySorted (λ a b : episode, a.2 < b.1) (segment data)).
  { eapply StronglySorted_weaken; [|exact Hsep]. intros a b.
    by apply (separated_by_rows_order Z.lt). }
  split; [|done]. by apply StronglySorted_Sorted.
Qed.

End Segmentation.

(** The merge sort on [charttime] is one sort [sort_values] may be: it
    permutes the rows and leaves them chronological. *)
#[local] Instance chart_le_trans : Transitive chart_le.
Proof. intros a b c. unfold chart_le. lia. Qed.

#[local] Instance chart_le_total : Total chart_le.
Proof. intros a b. unfold chart_le. lia. Qed.

Lemma sort_by_charttime_chronological (data : list lab_event) :
  chronological (sort_by_charttime data) ∧ sort_by_charttime data ≡ₚ data.
Proof.
  unfold chronological, sort_by_charttime. split.
  - apply StronglySorted_merge_sort; apply _.
  - apply merge_sort_Permutation.
Qed.

Example segment_lactate_stream :
  segment_episodes lactate_ids ph_ids default_min_duration lactate_stream
  = [(minutes 10, minutes 140)].
Proof. vm_compute. reflexivity. Qed.

Lemma unresolved_tail_abnormal :
  Forall (λ r, record_abnormal lactate_ids ph_ids r = true) unresolved_tail.
Proof. repeat constructor. Qed.

Lemma segment_episodes_min_duration_and_closed_witness :
  segment_episodes lactate_ids ph_ids default_min_duration
    (lactate_stream ++ unresolved_tail)
  = segment_episodes lactate_ids ph_ids default_min_duration lactate_stream.
Proof.
  apply (proj2 (segment_episodes_min_duration_and_closed
                  lactate_ids ph_ids default_min_duration lactate_stream)).
  exact unresolved_tail_abnormal.
Defined.

Lemma tied_stream_chronological : chronological tied_stream.
Proof.
  unfold chronological, tied_stream.
  repeat (constructor; [|repeat constructor; unfold chart_le, minutes; simpl; lia]).
  constructor.
Qed.

Lemma two_runs_stream_tie_free : tie_free two_runs_stream.
Proof.
  unfold tie_free, two_runs_stream.
  repeat (constructor; [|repeat constructor; unfold minutes; simpl; lia]).
  constructor.
Qed.

Lemma two_runs_stream_chronological : chronological two_runs_stream.
Proof.
  eapply StronglySorted_weaken; [|exact two_runs_stream_tie_free].
  intros a b. unfold chart_le. lia.
Qed.

Example segment_two_runs_stream :
  segment_episodes lactate_ids ph_ids default_min_duration two_runs_stream
  = [(minutes 0, minutes 130); (minutes 200, minutes 400)].
Proof. vm_compute. reflexivity. Qed.

Lemma segment_episodes_ordered_disjoint_witness :
  ends_before_next
    (segment_episodes lactate_ids ph_ids default_min_duration two_runs_stream) ∧
  strictly_separated
    (segment_episodes lactate_ids ph_ids default_min_duration two_runs_stream).
Proof.
  destruct (segment_episodes_ordered_disjoint
              lactate_ids ph_ids default_min_duration two_runs_stream
              two_runs_stream_chronological) as (_ & Hnext & _ & _ & Hstrict).
  split; [exact Hnext|]. exact (proj1 (Hstrict two_runs_stream_tie_free)).
Defined.

(** The stream [tied_stream] is chronological, yet its two episodes touch:
    the first ends at minute 130, where the second starts. *)
Lemma episodes_not_strictly_separated :
  chronological tied_stream ∧
  segment_episodes lactate_ids ph_ids default_min_duration tied_stream
    = [(minutes 0, minutes 130); (minutes 130, minutes 300)] ∧
  ¬ strictly_separated
      (segment_episodes lactate_ids ph_ids default_min_duration tied_stream).
Proof.
  split_and!.
  - exact tied_stream_chronological.
  - vm_compute. reflexivity.
  - assert (Heq : segment_episodes lactate_ids ph_ids default_min_duration tied_stream
                  = [(minutes 0, minutes 130); (minutes 130, minutes 300)])
      by (vm_compute; reflexivity).
    rewrite Heq. unfold strictly_separated. intros Hs.
    inversion Hs as [|a l _ Hhd]; subst. inversion Hhd as [|b l' Hlt]; subst.
    simpl in Hlt. lia.
Qed.

(** ** The medication loop *)

Lemma in_window_true (s e : Z) (d : emar_row) :
  in_window s e d = true ↔ ∃ t, scheduletime d = Some t ∧ s < t ∧ t < e.
Proof.
  unfold in_window, ts_gt, ts_lt. destruct (scheduletime d) as [t|]; simpl.
  - rewrite andb_true_iff, !bool_decide_eq_true. split.
    + intros [? ?]. by exists t.
    + intros (t' & [= <-] & ? & ?). done.
  - split; [discriminate|]. intros (t & ? & _). discriminate.
Qed.

Lemma meds_in_window_empty (subject_drugs : list emar_row) (s e : Z) :
  empty_frame (meds_in_window subject_drugs s e) = false ↔
  ∃ d t, d ∈ subject_drugs ∧ scheduletime d = Some t ∧ s < t ∧ t < e.
Proof.
  unfold meds_in_window. split.
  - destruct (filter _ subject_drugs) as [|d rest] eqn:Hf; [discriminate|]. intros _.
    assert (Hd : d ∈ filter (λ d, in_window s e d = true) subject_drugs)
      by (rewrite Hf; left).
    apply list_elem_of_filter in Hd as [Hw Hd]. apply in_window_true in Hw as (t & ? & ? & ?).
    by exists d, t.
  - intros (d & t & Hd & Ht & Hs & He).
    assert (Hin : d ∈ filter (λ d, in_window s e d = true) subject_drugs).
    { apply list_elem_of_filter. split; [|done]. apply in_window_true. by exists t. }
    destruct (filter _ subject_drugs); [|done]. by apply elem_of_nil in Hin.
Qed.

(** The loop appends the subject once when some administration is strictly
    inside some episode, and leaves [candidates] as it was otherwise. *)
Lemma episode_loop_cases (sid : Z) (subject_drugs : list emar_row)
    (eps : list episode) (candidates : list Z) :
  (strictly_inside eps subject_drugs ∧
     episode_loop sid subject_drugs eps candidates = candidates ++ [sid]) ∨
  (¬ strictly_inside eps subject_drugs ∧
     episode_loop sid subject_drugs eps candidates = candidates).
Proof.
  induction eps as [|[s e] eps IH]; simpl.
  - right. split; [|done]. intros (s & e & d & t & Hin & _). by apply elem_of_nil in Hin.
  - destruct (empty_frame (meds_in_window subject_drugs s e)) eqn:Hw; simpl.
    + destruct IH as [[Hin Heq]|[Hout Heq]].
      * left. split; [|done]. destruct Hin as (s' & e' & d & t & Hep & Hrest).
        exists s', e', d, t. split; [by right|done].
      * right. split; [|done]. intros (s' & e' & d & t & Hep & Hd & Ht & Hs & He).
        apply elem_of_cons in Hep as [[= -> ->]|Hep].
        -- assert (Hne : empty_frame (meds_in_window subject_drugs s e) = false)
             by (apply meds_in_window_empty; by exists d, t).
           congruence.
        -- apply Hout. by exists s', e', d, t.
    + left. split; [|done]. apply meds_in_window_empty in Hw as (d & t & Hd & Ht & Hs & He).
      exists s, e, d, t. split; [by left|done].
Qed.

(** C2: the loop flags the subject exactly when some administration of the
    subject is scheduled strictly after the start and strictly before the end
    of some episode; administrations at or outside the bounds of every
    episode flag nobody. *)
Theorem medication_overlap_iff (sid : Z) (subject_drugs : list emar_row)
    (eps : list episode) (candidates : list Z) :
  (episode_loop sid subject_drugs eps candidates = candidates ++ [sid] ↔
     ∃ s e d t, (s, e) ∈ eps ∧ d ∈ subject_drugs ∧
       scheduletime d = Some t ∧ s < t ∧ t < e) ∧
  (episode_loop sid subject_drugs eps candidates = candidates ∨
   episode_loop sid subject_drugs eps candidates = candidates ++ [sid]) ∧
  ((∀ s e d t, (s, e) ∈ eps → d ∈ subject_drugs → scheduletime d = Some t →
      t ≤ s ∨ e ≤ t) →
   episode_loop sid subject_drugs eps candidates = candidates).
Proof.
  assert (Hne : candidates ≠ candidates ++ [sid]).
  { intros Heq. apply (f_equal length) in Heq. rewrite length_app in Heq.
    simpl in Heq. lia. }
  fold (strictly_inside eps subject_drugs).
  destruct (episode_loop_cases sid subject_drugs eps candidates)
    as [[Hin Heq]|[Hout Heq]]; rewrite Heq; split_and!.
  - done.
  - by right.
  - intros Hb. destruct Hin as (s & e & d & t & Hep & Hd & Ht & Hs & He).
    destruct (Hb s e d t Hep Hd Ht); lia.
  - split; [intros ?; by destruct Hne | done].
  - by left.
  - done.
Qed.

Example inside_drugs_flag :
  episode_loop 1 inside_drugs window_episodes [] = [1].
Proof. vm_compute. reflexivity. Qed.

Lemma medication_overlap_iff_witness :
  episode_loop 1 outside_drugs window_episodes [] = [].
Proof.
  apply (proj2 (proj2 (medication_overlap_iff 1 outside_drugs window_episodes []))).
  intros s e d t Hep Hd Ht.
  apply list_elem_of_singleton in Hep. injection Hep as -> ->.
  unfold outside_drugs in Hd.
  repeat (apply elem_of_cons in Hd as [-> | Hd]);
    try (by apply elem_of_nil in Hd);
    simpl in Ht; try discriminate Ht; injection Ht as <-; unfold minutes; lia.
Defined.

(** ** The candidate list *)

Lemma StronglySorted_sublist {A} (R : relation A) (l1 l2 : list A) :
  l1 `sublist_of` l2 → StronglySorted R l2 → StronglySorted R l1.
Proof.
  intros Hsub. induction Hsub as [|x l1 l2 Hsub IH|x l1 l2 Hsub IH]; intros Hs.
  - constructor.
  - apply StronglySorted_inv in Hs as [Hs Hall]. constructor; [by apply IH|].
    rewrite Forall_forall in Hall |- *. intros y Hy. apply Hall.
    by eapply elem_of_sublist.
  - apply StronglySorted_inv in Hs as [Hs _]. by apply IH.
Qed.

Lemma StronglySorted_le_NoDup_lt (l : list Z) :
  StronglySorted Z.le l → NoDup l → StronglySorted Z.lt l.
Proof.
  intros Hs. induction Hs as [|x l Hs IH Hall]; intros Hnd; [constructor|].
  apply NoDup_cons in Hnd as [Hx Hnd]. constructor; [by apply IH|].
  rewrite Forall_forall in Hall |- *. intros y Hy. specialize (Hall y Hy).
  assert (x ≠ y) by (intros ->; done). lia.
Qed.

Lemma StronglySorted_lt_NoDup (l : list Z) : StronglySorted Z.lt l → NoDup l.
Proof.
  intros Hs. induction Hs as [|x l Hs IH Hall]; constructor; [|done].
  intros Hx. rewrite Forall_forall in Hall. specialize (Hall x Hx). lia.
Qed.

(** [groupby] visits every subject once, in ascending order. *)
Lemma group_keys_ascending (bp : list lab_event) : StronglySorted Z.lt (group_keys bp).
Proof.
  unfold group_keys. apply StronglySorted_le_NoDup_lt.
  - apply StronglySorted_merge_sort; apply _.
  - rewrite merge_sort_Permutation. apply NoDup_elements.
Qed.

Lemma groupby_keys (bp : list lab_event) : (groupby_subject_id bp).*1 = group_keys bp.
Proof.
  unfold groupby_subject_id. rewrite <- list_fmap_compose.
  apply list_fmap_id.
Qed.

Section Candidates.

Context (sort_values : list lab_event → list lab_event).
Context (vadrugs : list emar_row) (lactate_items ph_items : list Z) (min_duration : Z).

Local Abbreviation body :=
  (subject_body sort_values vadrugs lactate_items ph_items min_duration).

(** One pass of the outer loop appends the subject of the group, once, or
    nothing. *)
Lemma subject_body_appends (candidates : list Z) (group : Z * list lab_event) :
  body candidates group = candidates ∨ body candidates group = candidates ++ [group.1].
Proof.
  unfold subject_body.
  destruct (episode_loop_cases group.1 (subject_rows vadrugs group.1)
              (segment_episodes lactate_items ph_items min_duration
                 (sort_values group.2)) candidates) as [[_ ->]|[_ ->]]; auto.
Qed.

Lemma foldl_subject_body (groups : list (Z * list lab_event)) (candidates : list Z) :
  ∃ added, foldl body candidates groups = candidates ++ added ∧
           added `sublist_of` groups.*1.
Proof.
  revert candidates. induction groups as [|g groups IH]; intros candidates; simpl.
  - exists []. by rewrite app_nil_r.
  - destruct (IH (body candidates g)) as (added & -> & Hsub).
    destruct (subject_body_appends candidates g) as [-> | ->].
    + exists added. split; [done|]. by apply sublist_cons.
    + exists (g.1 :: added). split; [by rewrite <- app_assoc|]. by apply sublist_skip.
Qed.

End Candidates.

(** C10: the candidate list names each subject at most once, in ascending
    order of [subject_id]. *)
Theorem identify_candidates_unique_ascending
    (sort_values : list lab_event → list lab_event)
    (bp : list lab_event) (vadrugs : list emar_row)
    (lactate_items ph_items : list Z) (min_duration : Z) :
  NoDup (identify_acidosis_episodes sort_values bp vadrugs
           lactate_items ph_items min_duration) ∧
  StronglySorted Z.lt (identify_acidosis_episodes sort_values bp vadrugs
           lactate_items ph_items min_duration).
Proof.
  assert (Hs : StronglySorted Z.lt (identify_acidosis_episodes sort_values bp vadrugs
           lactate_items ph_items min_duration)).
  { unfold identify_acidosis_episodes.
    destruct (foldl_subject_body sort_values vadrugs lactate_items ph_items
                min_duration (groupby_subject_id bp) []) as (added & -> & Hsub).
    simpl. rewrite groupby_keys in Hsub.
    eapply StronglySorted_sublist; [exact Hsub|]. apply group_keys_ascending. }
  split; [|done]. by apply StronglySorted_lt_NoDup.
Qed.

(** ** [run_query] *)

(** C7: [run_query] raises its own error exactly when the BigQuery library
    is missing; when the library is there the query is handed to the client
    and its outcome is passed on. *)
Theorem run_query_missing_library_iff {row : Type} (bigquery_installed : bool)
    (client : bq_client row) (query : string) :
  (run_query bigquery_installed client query = Raise BigQueryNotInstalled ↔
     bigquery_installed = false) ∧
  (bigquery_installed = true →
     run_query bigquery_installed client query =
       match client query with
       | Answer frame => Return frame
       | Failure what => Raise (ClientError what)
       end).
Proof.
  unfold run_query. destruct bigquery_installed; simpl.
  - split; [|done]. destruct (client query); split; discriminate.
  - split; [done|discriminate].
Qed.

Lemma run_query_missing_library_iff_witness :
  run_query true one_coded_client "SELECT 1" = Return [ DiagRow 1 "E872" ].
Proof.
  apply (proj2 (run_query_missing_library_iff true one_coded_client "SELECT 1")).
  reflexivity.
Defined.

(** ** [evaluate_against_diagnosis] *)

(** C6: with no candidate the result is the empty frame with the two
    columns, whether or not BigQuery is installed and whatever the client. *)
Theorem evaluate_no_candidates (bigquery_installed : bool)
    (client : bq_client diag_row) (icd : string) :
  evaluate_against_diagnosis bigquery_installed client [] icd
  = Return (CohortFrame ["subject_id"; "has_code"] []).
Proof. reflexivity. Qed.

(** C5 at a diagnosis table that lists the subject twice: the merge repeats
    the row of subject 7, so the result has two rows for one candidate. *)
Theorem evaluate_repeats_subject :
  evaluate_against_diagnosis true two_admissions_client [7] "E872"
  = Return (CohortFrame ["subject_id"; "has_code"] [(7, true); (7, true)]) ∧
  ¬ NoDup [(7, true); (7, true)].*1.
Proof.
  split; [vm_compute; reflexivity|].
  intros Hnd. apply NoDup_cons in Hnd as [Hin _]. apply Hin. simpl. left.
Qed.

Example evaluate_one_coded :
  ∃ result_rows,
    evaluate_against_diagnosis true one_coded_client [1; 2; 3] "E872"
    = Return (CohortFrame ["subject_id"; "has_code"] result_rows) ∧
    result_rows ≡ₚ [(1, true); (2, false); (3, false)].
Proof.
  eexists. split; [vm_compute; reflexivity|].
  symmetry. apply (Permutation_rev [(1, true); (2, false); (3, false)]).
Qed.

(** The rows of the left merge: every left key, with a value of the right
    frame when the key is there and a missing value when it is not. *)
Lemma elem_of_merge_left (left : list Z) (right : list (Z * bool))
    (s : Z) (o : option bool) :
  (s, o) ∈ merge_left left right ↔
  s ∈ left ∧ match o with
             | Some b => (s, b) ∈ right
             | None => ∀ b, (s, b) ∉ right
             end.
Proof.
  unfold merge_left. rewrite list_elem_of_bind. split.
  - intros (k & Hin & Hk).
    destruct (filter (λ r : Z * bool, r.1 = k) right) as [|p rest] eqn:Hf.
    + apply list_elem_of_singleton in Hin as [= -> ->]. split; [done|].
      intros b Hb. eapply (filter_nil_not_elem_of _ _ (k, b)); [exact Hf|done|done].
    + rewrite <- Hf in Hin. apply list_elem_of_fmap in Hin as (r & [= -> ->] & Hr).
      apply list_elem_of_filter in Hr as [Hk' Hr]. split; [done|].
      destruct r as [k' b]. simpl in *. by subst.
  - intros [Hs Ho]. exists s. split; [|done].
    destruct (filter (λ r : Z * bool, r.1 = s) right) as [|p rest] eqn:Hf.
    + destruct o as [b|]; [|left].
      exfalso. eapply (filter_nil_not_elem_of _ _ (s, b)); [exact Hf|done|done].
    + rewrite <- Hf. destruct o as [b|].
      * apply (list_elem_of_fmap_2' _ _ (s, b)); [|done].
        apply list_elem_of_filter. done.
      * exfalso. destruct p as [k b].
        assert (Hp : (k, b) ∈ filter (λ r : Z * bool, r.1 = s) right)
          by (rewrite Hf; left).
        apply list_elem_of_filter in Hp as [Hk Hp]. simpl in Hk. subst k.
        by apply (Ho b).
Qed.

Lemma filter_key_unique (right : list (Z * bool)) (s : Z) :
  NoDup right.*1 → (length (filter (λ r : Z * bool, r.1 = s) right) ≤ 1)%nat.
Proof.
  induction right as [|[k b] right IH]; simpl; [lia|].
  intros [Hk Hnd]%NoDup_cons. rewrite filter_cons. simpl.
  destruct (decide (k = s)) as [->|Hne]; [|by apply IH].
  destruct (filter (λ r : Z * bool, r.1 = s) right) as [|[k' b'] rest] eqn:Hf;
    [simpl; lia|].
  exfalso. apply Hk.
  assert (Hp : (k', b') ∈ filter (λ r : Z * bool, r.1 = s) right)
    by (rewrite Hf; left).
  apply list_elem_of_filter in Hp as [Hk' Hp]. simpl in Hk'. subst k'.
  by apply (list_elem_of_fmap_2' fst _ (s, b')).
Qed.

(** When no key is repeated on the right, the merge keeps the left column
    as it is. *)
Lemma merge_left_keys (left : list Z) (right : list (Z * bool)) :
  NoDup right.*1 → (merge_left left right).*1 = left.
Proof.
  intros Hnd. unfold merge_left.
  induction left as [|s left IH]; [done|].
  rewrite bind_cons, fmap_app, IH.
  pose proof (filter_key_unique right s Hnd) as Hlen.
  destruct (filter (λ r : Z * bool, r.1 = s) right) as [|p [|q rest]]; simpl in *;
    [done|done|lia].
Qed.

(** What [evaluate_against_diagnosis] returns for a non-empty candidate
    list once the client has answered: the subjects of the rows are exactly
    the candidates, [has_code] tells whether the subject is in the answer,
    and no subject is repeated provided the answer repeats none. *)
Lemma evaluate_rows (client : bq_client diag_row) (subjects : list Z)
    (icd : string) (diag_df : list diag_row) :
  subjects ≠ [] →
  client (diag_query (String.concat "," (pretty <$> py_set_list subjects)) icd)
    = Answer diag_df →
  ∃ rows,
    evaluate_against_diagnosis true client subjects icd
      = Return (CohortFrame ["subject_id"; "has_code"] rows) ∧
    (∀ s, s ∈ rows.*1 ↔ s ∈ subjects) ∧
    (∀ s b, (s, b) ∈ rows → (b = true ↔ s ∈ diag_subject_id <$> diag_df)) ∧
    (NoDup (diag_subject_id <$> diag_df) →
       rows.*1 = py_set_list subjects ∧ NoDup rows.*1).
Proof.
  intros Hne Hclient.
  assert (Hemp : empty_frame subjects = false) by (by destruct subjects).
  unfold evaluate_against_diagnosis, run_query. rewrite Hemp. cbn [negb].
  rewrite Hclient. unfold mbind, result_bind.
  set (with_code := (λ r, (diag_subject_id r, true)) <$> diag_df).
  assert (Hkeys : with_code.*1 = diag_subject_id <$> diag_df).
  { unfold with_code. rewrite <- list_fmap_compose. done. }
  assert (Hset : ∀ s, s ∈ py_set_list subjects ↔ s ∈ subjects).
  { intros s. unfold py_set_list. rewrite elem_of_elements, elem_of_list_to_set. done. }
  eexists. split; [reflexivity|]. unfold fillna. split_and!.
  - intros s. rewrite <- Hset. split.
    + intros ([k b] & -> & Hin)%list_elem_of_fmap.
      apply list_elem_of_fmap in Hin as ([k' o'] & [= -> ->] & Hin).
      apply elem_of_merge_left in Hin as [Hin _]. done.
    + intros Hs.
      destruct (decide (s ∈ with_code.*1)) as [Hin|Hout].
      * apply list_elem_of_fmap in Hin as ([k b] & -> & Hin). simpl.
        apply (list_elem_of_fmap_2' _ _ (k, b)); [|done].
        apply (list_elem_of_fmap_2' _ _ (k, Some b)); [|done].
        apply elem_of_merge_left. done.
      * apply (list_elem_of_fmap_2' _ _ (s, false)); [|done].
        apply (list_elem_of_fmap_2' _ _ (s, None)); [|done].
        apply elem_of_merge_left. split; [done|]. intros b Hb. apply Hout.
        by apply (list_elem_of_fmap_2' fst _ (s, b)).
  - intros s b ([k o] & [= -> ->] & Hin)%list_elem_of_fmap. rewrite <- Hkeys.
    apply elem_of_merge_left in Hin as [_ Hin]. destruct o as [b|]; simpl.
    + split; [|intros _].
      * intros _. apply (list_elem_of_fmap_2' fst _ (k, b)); done.
      * unfold with_code in Hin.
        apply list_elem_of_fmap in Hin as (r & [= _ ->] & _). done.
    + split; [discriminate|].
      intros ([k' b] & -> & Hin')%list_elem_of_fmap. by destruct (Hin b).
  - intros Hnd. rewrite <- Hkeys in Hnd.
    rewrite <- list_fmap_compose.
    assert (Hfst : (merge_left (py_set_list subjects) with_code).*1 = py_set_list subjects)
      by (by apply merge_left_keys).
    assert (Heq : (fst ∘ (λ r : Z * option bool, (r.1, default false r.2)))
                  <$> merge_left (py_set_list subjects) with_code
                  = py_set_list subjects).
    { rewrite <- Hfst at 2. apply list_fmap_ext. intros _ [k o] _. done. }
    rewrite Heq. split; [done|]. unfold py_set_list. apply NoDup_elements.
Qed.

(** ** The summary of [main] *)

Lemma py_truediv_nonzero (a b : Z) :
  b ≠ 0 →
  py_truediv a b = Return (PyFloat.truediv (PyFloat.of_int a) (PyFloat.of_int b)).
Proof. intros Hb. unfold py_truediv. by rewrite bool_decide_eq_false_2. Qed.

(** C8: with no result row the percentage is 0.0 and nothing is divided;
    the quotient is taken only for a positive number of rows, so the
    summary never raises [ZeroDivisionError]. *)
Theorem accuracy_guards_division (results : cohort_frame) :
  (total_subjects results = 0 → accuracy results = Return (S754_zero false)) ∧
  (0 < total_subjects results →
     accuracy results =
       Return (PyFloat.mul
                 (PyFloat.truediv (PyFloat.of_int (num_with_code results))
                    (PyFloat.of_int (total_subjects results)))
                 (PyFloat.of_int 100))) ∧
  accuracy results ≠ Raise ZeroDivisionError.
Proof.
  unfold accuracy. case_bool_decide as Hpos.
  - rewrite py_truediv_nonzero by lia. split_and!; [lia|done|discriminate].
  - split_and!; [done|lia|discriminate].
Qed.

Lemma accuracy_guards_division_witness :
  accuracy (CohortFrame ["subject_id"; "has_code"] []) = Return (S754_zero false).
Proof.
  apply (proj1 (accuracy_guards_division (CohortFrame ["subject_id"; "has_code"] []))).
  reflexivity.
Defined.

Example accuracy_one_of_three :
  accuracy (CohortFrame ["subject_id"; "has_code"] [(3, false); (2, false); (1, true)])
  = Return (S754_finite false 4691249611844266 (-47)).
Proof. vm_compute. reflexivity. Qed.

(** * Further properties *)

(** ** The segmentation loop, continued *)

Section SegmentationMore.

Context (lactate_items ph_items : list Z) (min_duration : Z).

Local Abbreviation abnormal := (record_abnormal lactate_items ph_items).
Local Abbreviation step := (scan_step lactate_items ph_items min_duration).
Local Abbreviation scan_rows := (scan lactate_items ph_items min_duration).
Local Abbreviation segment := (segment_episodes lactate_items ph_items min_duration).
Local Abbreviation boundary := (run_boundary lactate_items ph_items).
Local Abbreviation maximal := (maximal_closed_run lactate_items ph_items).

Lemma scan_app data more :
  scan_rows (data ++ more) = foldl step (scan_rows data) more.
Proof. unfold scan. apply foldl_app. Qed.

Lemma scan_step_prefix st r : episodes st `prefix_of` episodes (step st r).
Proof.
  unfold scan_step. destruct (abnormal r), (start st); simpl; try done.
  case_bool_decide; [|done]. by apply prefix_app_r.
Qed.

Lemma foldl_step_prefix st more :
  episodes st `prefix_of` episodes (foldl step st more).
Proof.
  revert st. induction more as [|r more IH]; intros st; simpl; [done|].
  etrans; [apply scan_step_prefix|apply IH].
Qed.

(** X1: reading more rows only appends episodes: the episodes of a stream
    are the first episodes of any stream that continues it. *)
Theorem segment_episodes_prefix (data more : list lab_event) :
  segment data `prefix_of` segment (data ++ more).
Proof. unfold segment_episodes. rewrite scan_app. apply foldl_step_prefix. Qed.

(** A run is open exactly when the last row read is abnormal. *)
Lemma start_open_iff data :
  is_Some (start (scan_rows data)) ↔ ∃ r, last data = Some r ∧ abnormal r = true.
Proof.
  induction data as [|r data IH] using rev_ind.
  - split; [intros [? ?]; discriminate|intros (r & ? & _); discriminate].
  - rewrite scan_snoc, last_snoc. unfold scan_step.
    destruct (abnormal r) eqn:Hr.
    + split; [intros _; by exists r|intros _].
      destruct (start (scan_rows data)) eqn:Hs; [rewrite Hs|]; by eexists.
    + split.
      * destruct (start (scan_rows data)) eqn:Hs; [|rewrite Hs];
          simpl; intros [? ?]; discriminate.
      * intros (r' & [= <-] & Hr'). congruence.
Qed.

Lemma boundary_start_None pre : boundary pre → start (scan_rows pre) = None.
Proof.
  intros Hb. destruct (start (scan_rows pre)) as [s|] eqn:Hs; [|done].
  assert (Hopen : is_Some (start (scan_rows pre))) by (rewrite Hs; by eexists).
  apply start_open_iff in Hopen as (r & Hlast & Hr).
  destruct Hb as [->|(pre' & r' & -> & Hr')]; [discriminate|].
  rewrite last_snoc in Hlast. congruence.
Qed.

Lemma start_None_boundary data : start (scan_rows data) = None → boundary data.
Proof.
  intros Hs. destruct data as [|r data _] using rev_ind; [by left|].
  right. exists data, r. split; [done|].
  destruct (abnormal r) eqn:Hr; [|done].
  assert (Hopen : is_Some (start (scan_rows (data ++ [r])))).
  { apply start_open_iff. exists r. by rewrite last_snoc. }
  rewrite Hs in Hopen. by destruct Hopen.
Qed.

(** Abnormal rows leave an open run as it is. *)
Lemma foldl_step_abnormal st s run :
  start st = Some s → Forall (λ r, abnormal r = true) run →
  foldl step st run = st.
Proof.
  intros Hs Hrun. induction Hrun as [|r run Hr _ IH]; simpl; [done|].
  assert (Hst : step st r = st) by (unfold scan_step; by rewrite Hr, Hs).
  by rewrite Hst.
Qed.

(** A maximal closed run that lasts long enough is emitted. *)
Lemma maximal_run_emitted data ep :
  maximal data ep → min_duration ≤ ep.2 - ep.1 → ep ∈ segment data.
Proof.
  intros (pre & first & run & closer & post & -> & Hb & Hrun & Hc & ->) Hd.
  simpl in Hd. apply Forall_cons in Hrun as [Hfirst Hrun].
  unfold segment_episodes.
  rewrite scan_app. simpl. rewrite foldl_app. simpl.
  set (st0 := scan_rows pre).
  assert (H0 : start st0 = None) by (by apply boundary_start_None).
  set (st1 := step st0 first).
  assert (H1 : start st1 = Some (charttime first)).
  { unfold st1, scan_step. by rewrite Hfirst, H0. }
  rewrite (foldl_step_abnormal st1 (charttime first) run H1 Hrun).
  set (st2 := step st1 closer).
  assert (H2 : (charttime first, charttime closer) ∈ episodes st2).
  { unfold st2, scan_step. rewrite Hc, H1. simpl.
    rewrite bool_decide_eq_true_2 by done. apply elem_of_app. right. by left. }
  eapply elem_of_prefix; [exact H2|apply foldl_step_prefix].
Qed.

(** The loop only emits maximal closed runs, and the run it holds open
    starts after a normal row or at the start of the stream. *)
Lemma scan_maximal data :
  Forall (λ ep, maximal data ep ∧ min_duration ≤ ep.2 - ep.1)
    (episodes (scan_rows data)) ∧
  (∀ s, start (scan_rows data) = Some s →
     ∃ pre first run, data = pre ++ first :: run ∧ boundary pre ∧
       Forall (λ r, abnormal r = true) (first :: run) ∧ s = charttime first).
Proof.
  induction data as [|r data [IHe IHs]] using rev_ind.
  - split; [constructor | intros s; discriminate].
  - assert (Hext : Forall (λ ep, maximal (data ++ [r]) ep ∧ min_duration ≤ ep.2 - ep.1)
              (episodes (scan_rows data))).
    { eapply Forall_impl; [exact IHe|]. intros ep [Hm ?]. split; [|done].
      destruct Hm as (pre & first & run & closer & post & -> & Hb & Hrun & Hc & ->).
      exists pre, first, run, closer, (post ++ [r]). split_and!; try done.
      rewrite <- !app_assoc, <- !app_comm_cons, <- !app_assoc, <- !app_comm_cons. done. }
    pose proof (start_None_boundary data) as Hnone.
    rewrite scan_snoc. unfold scan_step. destruct (abnormal r) eqn:Hr.
    + destruct (start (scan_rows data)) as [s|] eqn:Hs; simpl.
      * split; [done|]. intros s' Hs'. rewrite Hs in Hs'.
        destruct (IHs s' Hs') as (pre & first & run & -> & Hb & Hrun & ->).
        exists pre, first, (run ++ [r]). split_and!; try done.
        -- rewrite <- !app_assoc, <- !app_comm_cons. done.
        -- rewrite app_comm_cons. apply Forall_app. split; [done|]. by constructor.
      * split; [done|]. intros s' [= <-].
        exists data, r, []. split_and!; try done; [by apply Hnone|by repeat constructor].
    + destruct (start (scan_rows data)) as [s|] eqn:Hs; simpl.
      * split; [|intros ?; discriminate].
        case_bool_decide as Hd; [|done].
        apply Forall_app. split; [done|]. constructor; [|constructor].
        split; [|done].
        destruct (IHs s eq_refl) as (pre & first & run & -> & Hb & Hrun & ->).
        exists pre, first, run, r, []. split_and!; try done.
        rewrite <- !app_assoc, <- !app_comm_cons. done.
      * split; [done|]. intros s'. rewrite Hs. discriminate.
Qed.

(** X2: the segmentation emits exactly the maximal closed runs that last at
    least [min_duration]: a block of abnormal rows with no abnormal row right
    before it, closed by the normal row right after it, timed from the first
    row of the block to that normal row. *)
Theorem segment_episodes_exact (data : list lab_event) (ep : episode) :
  ep ∈ segment data ↔ maximal data ep ∧ min_duration ≤ ep.2 - ep.1.
Proof.
  split.
  - intros Hin. destruct (scan_maximal data) as [Hall _].
    rewrite Forall_forall in Hall. by apply Hall.
  - intros [Hm Hd]. by apply maximal_run_emitted.
Qed.

(** X3: each episode uses up at least one abnormal and one normal row, so a
    stream of [n] rows has at most [n / 2] episodes. *)
Theorem segment_episodes_count (data : list lab_event) :
  (2 * length (segment data) ≤ length data)%nat.
Proof.
  assert (Hinv : (2 * length (episodes (scan_rows data))
                  + match start (scan_rows data) with Some _ => 1 | None => 0 end
                  ≤ length data)%nat).
  { induction data as [|r data IH] using rev_ind; [simpl; lia|].
    rewrite scan_snoc, length_app. simpl. unfold scan_step.
    destruct (abnormal r); destruct (start (scan_rows data)) eqn:Hs;
      simpl; rewrite ?Hs; try lia.
    case_bool_decide; rewrite ?length_app; simpl; lia. }
  unfold segment_episodes. lia.
Qed.

End SegmentationMore.

Lemma lactate_stream_maximal_run :
  maximal_closed_run lactate_ids ph_ids lactate_stream (minutes 10, minutes 140).
Proof.
  exists [LabEvent 1 (minutes 0) 50813 (PyFloat.of_decimal 20 10)],
    (LabEvent 1 (minutes 10) 50813 (PyFloat.of_decimal 50 10)),
    [LabEvent 1 (minutes 130) 50813 (PyFloat.of_decimal 60 10)],
    (LabEvent 1 (minutes 140) 50813 (PyFloat.of_decimal 30 10)), [].
  split_and!; try reflexivity.
  - right. by exists [], (LabEvent 1 (minutes 0) 50813 (PyFloat.of_decimal 20 10)).
  - by repeat constructor.
Qed.

Lemma segment_episodes_exact_witness :
  (minutes 10, minutes 140)
    ∈ segment_episodes lactate_ids ph_ids default_min_duration lactate_stream.
Proof.
  apply (proj2 (segment_episodes_exact lactate_ids ph_ids default_min_duration
                  lactate_stream (minutes 10, minutes 140))).
  split; [exact lactate_stream_maximal_run|]. vm_compute. discriminate.
Defined.

(** The run that is open does not depend on [min_duration], and a longer
    [min_duration] keeps a part of the episodes. *)
Lemma scan_min_duration_mono (lactate_items ph_items : list Z)
    (shorter longer : Z) (data : list lab_event) :
  shorter ≤ longer →
  start (scan lactate_items ph_items longer data)
    = start (scan lactate_items ph_items shorter data) ∧
  episodes (scan lactate_items ph_items longer data)
    `sublist_of` episodes (scan lactate_items ph_items shorter data).
Proof.
  intros Hle. induction data as [|r data [IHs IHe]] using rev_ind; [done|].
  rewrite !scan_snoc. unfold scan_step. rewrite IHs.
  destruct (record_abnormal lactate_items ph_items r);
    destruct (start (scan lactate_items ph_items shorter data)) as [s|] eqn:Hs;
    simpl; try (split; [congruence|done]).
  split; [done|]. repeat case_bool_decide; try done; try lia.
  - by apply sublist_app.
  - by apply sublist_inserts_r.
Qed.

(** X4: raising [min_duration] only removes episodes: the episodes for the
    longer duration are, in order, among those for the shorter one. *)
Theorem segment_episodes_min_duration_mono (lactate_items ph_items : list Z)
    (shorter longer : Z) (data : list lab_event) :
  shorter ≤ longer →
  segment_episodes lactate_items ph_items longer data
    `sublist_of` segment_episodes lactate_items ph_items shorter data.
Proof. intros Hle. by apply scan_min_duration_mono. Qed.

Lemma segment_episodes_min_duration_mono_witness :
  segment_episodes lactate_ids ph_ids (minutes 240) tied_stream
    `sublist_of` segment_episodes lactate_ids ph_ids default_min_duration tied_stream.
Proof.
  apply (segment_episodes_min_duration_mono lactate_ids ph_ids
           default_min_duration (minutes 240) tied_stream).
  vm_compute. discriminate.
Defined.

Lemma ends_before_next_strict (eps : list episode) :
  ends_before_next eps → Forall (λ ep : episode, ep.1 < ep.2) eps →
  StronglySorted (λ a b : episode, a.1 < b.1 ∧ a.2 < b.2) eps.
Proof.
  unfold ends_before_next. intros Hs.
  induction Hs as [|a eps Hs IH Ha]; intros Hlt; [constructor|].
  apply Forall_cons in Hlt as [Hab Hlt]. constructor; [by apply IH|].
  rewrite Forall_forall in Ha, Hlt |- *. intros b Hb.
  specialize (Ha b Hb). specialize (Hlt b Hb). simpl in *. lia.
Qed.

(** X5: with a positive [min_duration] on a chronological stream every
    episode starts strictly before it ends, and the episodes come by
    strictly increasing start and strictly increasing end, so none is
    listed twice. *)
Theorem segment_episodes_strictly_increasing (lactate_items ph_items : list Z)
    (min_duration : Z) (data : list lab_event) :
  chronological data → 0 < min_duration →
  Forall (λ ep : episode, ep.1 < ep.2)
    (segment_episodes lactate_items ph_items min_duration data) ∧
  StronglySorted (λ a b : episode, a.1 < b.1 ∧ a.2 < b.2)
    (segment_episodes lactate_items ph_items min_duration data) ∧
  NoDup (segment_episodes lactate_items ph_items min_duration data).
Proof.
  intros Hsorted Hpos. unfold segment_episodes.
  destruct (scan_ordered lactate_items ph_items min_duration data Hsorted)
    as (Hnext & _ & _).
  destruct (scan_invariant lactate_items ph_items min_duration data) as [Hdur _].
  assert (Hlt : Forall (λ ep : episode, ep.1 < ep.2)
                  (episodes (scan lactate_items ph_items min_duration data))).
  { eapply Forall_impl; [exact Hdur|]. intros ep [_ ?]. simpl in *. lia. }
  assert (Hss : StronglySorted (λ a b : episode, a.1 < b.1 ∧ a.2 < b.2)
                  (episodes (scan lactate_items ph_items min_duration data))).
  { by apply ends_before_next_strict. }
  split_and!; try done.
  clear -Hss. induction Hss as [|a eps Hs IH Ha]; constructor; [|done].
  intros Hin. rewrite Forall_forall in Ha. specialize (Ha a Hin). lia.
Qed.

Lemma segment_episodes_strictly_increasing_witness :
  NoDup (segment_episodes lactate_ids ph_ids default_min_duration tied_stream).
Proof.
  apply (segment_episodes_strictly_increasing lactate_ids ph_ids
           default_min_duration tied_stream).
  - exact tied_stream_chronological.
  - vm_compute. reflexivity.
Defined.

(** ** The medication loop, continued *)

Lemma strictly_inside_mono (eps eps' : list episode) (drugs drugs' : list emar_row) :
  eps ⊆ eps' → drugs ⊆ drugs' →
  strictly_inside eps drugs → strictly_inside eps' drugs'.
Proof.
  intros He Hd (s & e & d & t & Hep & Hin & Hrest).
  exists s, e, d, t. split_and!; [by apply He|by apply Hd|apply Hrest..].
Qed.

Lemma append_one_ne (candidates : list Z) (sid : Z) : candidates ++ [sid] ≠ candidates.
Proof.
  intros Heq. apply (f_equal length) in Heq. rewrite length_app in Heq.
  simpl in Heq. lia.
Qed.

Lemma episode_loop_flag_iff (sid : Z) (subject_drugs : list emar_row)
    (eps : list episode) (candidates : list Z) :
  episode_loop sid subject_drugs eps candidates = candidates ++ [sid] ↔
  strictly_inside eps subject_drugs.
Proof.
  destruct (episode_loop_cases sid subject_drugs eps candidates)
    as [[Hin ->]|[Hout ->]]; split; try done.
  intros Heq. symmetry in Heq. by apply append_one_ne in Heq.
Qed.

(** X6: the flag does not depend on the order of the episodes or of the
    administrations, and more of either never removes it: a subject flagged
    for some episodes and administrations is flagged for any lists that
    contain them. *)
Theorem medication_flag_monotone (sid : Z) (drugs drugs' : list emar_row)
    (eps eps' : list episode) (candidates : list Z) :
  eps ⊆ eps' → drugs ⊆ drugs' →
  episode_loop sid drugs eps candidates = candidates ++ [sid] →
  episode_loop sid drugs' eps' candidates = candidates ++ [sid].
Proof.
  intros He Hd Hflag. apply episode_loop_flag_iff.
  apply (strictly_inside_mono eps eps' drugs drugs' He Hd).
  by apply episode_loop_flag_iff in Hflag.
Qed.

Lemma medication_flag_monotone_witness :
  episode_loop 1 (outside_drugs ++ inside_drugs)
    ((minutes 0, minutes 30) :: window_episodes) [] = [1].
Proof.
  apply (medication_flag_monotone 1 inside_drugs (outside_drugs ++ inside_drugs)
           window_episodes ((minutes 0, minutes 30) :: window_episodes) []).
  - intros x Hx. by right.
  - intros x Hx. apply elem_of_app. by right.
  - vm_compute. reflexivity.
Defined.

(** ** The whole detection, continued *)

Lemma filter_sublist_mono {A} (P Q : A → Prop)
    `{!∀ x, Decision (P x), !∀ x, Decision (Q x)} (l : list A) :
  (∀ x, x ∈ l → P x → Q x) → filter P l `sublist_of` filter Q l.
Proof.
  induction l as [|x l IH]; intros Himp; [done|].
  assert (IH' : filter P l `sublist_of` filter Q l).
  { apply IH. intros y Hy. apply Himp. by right. }
  rewrite !filter_cons. destruct (decide (P x)) as [HP|HP].
  - rewrite decide_True by (apply Himp; [by left|done]). by apply sublist_skip.
  - destruct (decide (Q x)); [by apply sublist_cons|done].
Qed.

Lemma elem_of_group_keys (bp : list lab_event) (k : Z) :
  k ∈ group_keys bp ↔ k ∈ subject_id <$> bp.
Proof.
  unfold group_keys. rewrite merge_sort_Permutation, elem_of_elements.
  apply elem_of_list_to_set.
Qed.

Section Detection.

Context (sort_values : list lab_event → list lab_event).
Context (vadrugs : list emar_row) (lactate_items ph_items : list Z).

Local Abbreviation body md :=
  (subject_body sort_values vadrugs lactate_items ph_items md).
Local Abbreviation flagged bp md :=
  (subject_flagged sort_values bp vadrugs lactate_items ph_items md).
Local Abbreviation identify bp md :=
  (identify_acidosis_episodes sort_values bp vadrugs lactate_items ph_items md).
Local Abbreviation episodes_of bp md k :=
  (segment_episodes lactate_items ph_items md
     (sort_values (filter (λ r, subject_id r = k) bp))).

Lemma subject_flagged_iff bp md k :
  flagged bp md k = true ↔
  strictly_inside (episodes_of bp md k) (subject_rows vadrugs k).
Proof.
  unfold subject_flagged, subject_body. simpl.
  destruct (episode_loop_cases k (subject_rows vadrugs k) (episodes_of bp md k) [])
    as [[Hin ->]|[Hout ->]]; simpl; split; try done.
Qed.

Lemma subject_body_flagged bp md candidates k :
  body md candidates (k, filter (λ r, subject_id r = k) bp)
  = candidates ++ (if flagged bp md k then [k] else []).
Proof.
  unfold subject_flagged, subject_body. simpl.
  destruct (episode_loop_cases k (subject_rows vadrugs k) (episodes_of bp md k) candidates)
    as [[Hin ->]|[Hout ->]];
  destruct (episode_loop_cases k (subject_rows vadrugs k) (episodes_of bp md k) [])
    as [[Hin' ->]|[Hout' ->]]; simpl; try done.
  by rewrite app_nil_r.
Qed.

(** The candidates are the group keys that the loop flags, in key order. *)
Lemma identify_filter bp md :
  identify bp md = filter (λ k, flagged bp md k = true) (group_keys bp).
Proof.
  unfold identify_acidosis_episodes, groupby_subject_id. rewrite foldl_fmap.
  assert (Hgen : ∀ keys candidates,
    foldl (λ a k, body md a (k, filter (λ r, subject_id r = k) bp)) candidates keys
    = candidates ++ filter (λ k, flagged bp md k = true) keys).
  { induction keys as [|k keys IH]; intros candidates; simpl.
    - by rewrite app_nil_r.
    - rewrite IH, subject_body_flagged, filter_cons.
      destruct (flagged bp md k); simpl.
      + by rewrite <- app_assoc.
      + by rewrite app_nil_r. }
  apply (Hgen (group_keys bp) []).
Qed.

Lemma elem_of_identify bp md k :
  k ∈ identify bp md ↔
  k ∈ subject_id <$> bp ∧
  strictly_inside (episodes_of bp md k) (subject_rows vadrugs k).
Proof.
  rewrite identify_filter, list_elem_of_filter, elem_of_group_keys, subject_flagged_iff.
  tauto.
Qed.

(** X7: a subject is a candidate exactly when it has laboratory rows and
    one of its own administrations is scheduled strictly inside one of the
    episodes of its own sorted rows. *)
Theorem identify_member_iff bp md k :
  k ∈ identify_acidosis_episodes sort_values bp vadrugs lactate_items ph_items md ↔
  k ∈ subject_id <$> bp ∧
  ∃ s e d t,
    (s, e) ∈ segment_episodes lactate_items ph_items md
               (sort_values (filter (λ r, subject_id r = k) bp)) ∧
    d ∈ vadrugs ∧ drug_subject_id d = k ∧ scheduletime d = Some t ∧
    s < t ∧ t < e.
Proof.
  rewrite elem_of_identify. unfold strictly_inside, subject_rows. split.
  - intros [Hk (s & e & d & t & Hep & Hd & Hrest)]. split; [done|].
    apply list_elem_of_filter in Hd as [Hsid Hd]. by exists s, e, d, t.
  - intros [Hk (s & e & d & t & Hep & Hd & Hsid & Hrest)]. split; [done|].
    exists s, e, d, t. split_and!; try apply Hrest; [done|].
    by apply list_elem_of_filter.
Qed.

(** X8: raising [min_duration] only removes candidates. *)
Theorem identify_min_duration_mono bp shorter longer :
  shorter ≤ longer →
  identify_acidosis_episodes sort_values bp vadrugs lactate_items ph_items longer
    `sublist_of`
  identify_acidosis_episodes sort_values bp vadrugs lactate_items ph_items shorter.
Proof.
  intros Hle. rewrite !identify_filter. apply filter_sublist_mono.
  intros k _. rewrite !subject_flagged_iff. apply strictly_inside_mono; [|done].
  apply sublist_subseteq. by apply scan_min_duration_mono.
Qed.

(** X9: every candidate has laboratory rows and administrations of its own;
    without laboratory rows, or without administrations, nobody is a
    candidate. *)
Theorem identify_needs_rows_and_drugs bp md :
  (∀ k, k ∈ identify_acidosis_episodes sort_values bp vadrugs lactate_items ph_items md →
     k ∈ subject_id <$> bp ∧ k ∈ drug_subject_id <$> vadrugs) ∧
  (bp = [] →
     identify_acidosis_episodes sort_values bp vadrugs lactate_items ph_items md = []) ∧
  (vadrugs = [] →
     identify_acidosis_episodes sort_values bp vadrugs lactate_items ph_items md = []).
Proof.
  assert (Hmem : ∀ k, k ∈ identify bp md →
            k ∈ subject_id <$> bp ∧ k ∈ drug_subject_id <$> vadrugs).
  { intros k [Hk (s & e & d & t & _ & Hd & _)]%elem_of_identify. split; [done|].
    apply list_elem_of_filter in Hd as [Hsid Hd].
    by apply (list_elem_of_fmap_2' drug_subject_id _ d). }
  split_and!; [done| |].
  - intros Hbp. apply elem_of_nil_inv. intros k [Hk _]%Hmem.
    rewrite Hbp in Hk. by apply elem_of_nil in Hk.
  - intros Hdrugs. apply elem_of_nil_inv. intros k [_ Hk]%Hmem.
    rewrite Hdrugs in Hk. by apply elem_of_nil in Hk.
Qed.

Lemma group_keys_one_subject bp k :
  k ∈ subject_id <$> bp →
  group_keys (filter (λ r, subject_id r = k) bp) = [k].
Proof.
  intros Hk.
  pose proof (group_keys_ascending (filter (λ r, subject_id r = k) bp)) as Hs.
  apply StronglySorted_lt_NoDup in Hs.
  assert (Hall : ∀ x, x ∈ group_keys (filter (λ r, subject_id r = k) bp) ↔ x = k).
  { intros x. rewrite elem_of_group_keys, list_elem_of_fmap. split.
    - intros (r & -> & [Hr _]%list_elem_of_filter). done.
    - intros ->. apply list_elem_of_fmap in Hk as (r & -> & Hr).
      exists r. split; [done|]. by apply list_elem_of_filter. }
  destruct (group_keys (filter (λ r, subject_id r = k) bp)) as [|a [|b l]].
  - exfalso. eapply elem_of_nil. by apply Hall.
  - f_equal. apply Hall. by left.
  - exfalso. assert (a = k) by (apply Hall; by left).
    assert (b = k) by (apply Hall; right; by left). subst.
    apply NoDup_cons in Hs as [Hs _]. apply Hs. by left.
Qed.

Lemma episodes_of_filter bp md k :
  episodes_of (filter (λ r, subject_id r = k) bp) md k = episodes_of bp md k.
Proof. by rewrite list_filter_filter_l. Qed.

(** X10: subjects are judged independently: a subject is a candidate of the
    whole frame exactly when the detection run on its own rows alone returns
    that subject. *)
Theorem identify_per_subject bp md k :
  k ∈ identify_acidosis_episodes sort_values bp vadrugs lactate_items ph_items md ↔
  identify_acidosis_episodes sort_values (filter (λ r, subject_id r = k) bp)
    vadrugs lactate_items ph_items md = [k].
Proof.
  split.
  - intros [Hk Hin]%elem_of_identify.
    rewrite identify_filter, (group_keys_one_subject bp k Hk), filter_cons, filter_nil.
    rewrite decide_True; [done|].
    apply subject_flagged_iff. by rewrite episodes_of_filter.
  - intros Heq.
    assert (Hin : k ∈ identify (filter (λ r, subject_id r = k) bp) md)
      by (rewrite Heq; left).
    apply elem_of_identify in Hin as [Hk Hin]. apply elem_of_identify.
    rewrite episodes_of_filter in Hin. split; [|done].
    apply list_elem_of_fmap in Hk as (r & -> & [_ Hr]%list_elem_of_filter).
    by apply list_elem_of_fmap_2.
Qed.

End Detection.

Example identify_two_subjects :
  identify_acidosis_episodes sort_by_charttime two_subjects pressor_drugs
    lactate_ids ph_ids default_min_duration = [1]
  ∧ identify_acidosis_episodes sort_by_charttime two_subjects pressor_drugs
    lactate_ids ph_ids (minutes 60) = [1; 2].
Proof. split; vm_compute; reflexivity. Qed.

Lemma identify_member_iff_witness :
  1 ∈ identify_acidosis_episodes sort_by_charttime two_subjects pressor_drugs
        lactate_ids ph_ids default_min_duration.
Proof.
  apply (proj2 (identify_member_iff sort_by_charttime pressor_drugs lactate_ids ph_ids
                  two_subjects default_min_duration 1)).
  split; [vm_compute; do 2 right; left|].
  exists (minutes 10), (minutes 140), (EmarRow 1 "norepinephrine" (Some (minutes 60))),
    (minutes 60).
  split_and!; try reflexivity; try (vm_compute; reflexivity).
  - vm_compute. left.
  - left.
Defined.

Lemma identify_min_duration_mono_witness :
  identify_acidosis_episodes sort_by_charttime two_subjects pressor_drugs
    lactate_ids ph_ids default_min_duration
  `sublist_of`
  identify_acidosis_episodes sort_by_charttime two_subjects pressor_drugs
    lactate_ids ph_ids (minutes 60).
Proof.
  apply (identify_min_duration_mono sort_by_charttime pressor_drugs lactate_ids ph_ids
           two_subjects (minutes 60) default_min_duration).
  vm_compute. discriminate.
Defined.

Lemma identify_needs_rows_and_drugs_witness :
  identify_acidosis_episodes sort_by_charttime two_subjects []
    lactate_ids ph_ids default_min_duration = [].
Proof.
  apply (proj2 (proj2 (identify_needs_rows_and_drugs sort_by_charttime []
                         lactate_ids ph_ids two_subjects default_min_duration))).
  reflexivity.
Defined.

Lemma identify_per_subject_witness :
  identify_acidosis_episodes sort_by_charttime
    (filter (λ r, subject_id r = 1) two_subjects) pressor_drugs
    lactate_ids ph_ids default_min_duration = [1].
Proof.
  apply (proj1 (identify_per_subject sort_by_charttime pressor_drugs lactate_ids ph_ids
                  two_subjects default_min_duration 1)).
  vm_compute. left.
Defined.

(** ** [evaluate_against_diagnosis], continued *)

(** X11: [evaluate_against_diagnosis] raises the missing-library error
    exactly when BigQuery is not installed and there is a candidate; with no
    candidate it returns before any query. *)
Theorem evaluate_missing_library_iff (bigquery_installed : bool)
    (client : bq_client diag_row) (subjects : list Z) (icd : string) :
  evaluate_against_diagnosis bigquery_installed client subjects icd
    = Raise BigQueryNotInstalled ↔
  bigquery_installed = false ∧ subjects ≠ [].
Proof.
  unfold evaluate_against_diagnosis, run_query.
  destruct subjects as [|s subjects]; simpl.
  - split; [discriminate|]. intros [_ ?]. done.
  - destruct bigquery_installed; simpl.
    + destruct (client _); simpl; split; try discriminate; intros [? _]; discriminate.
    + done.
Qed.

Lemma evaluate_missing_library_iff_witness :
  evaluate_against_diagnosis false one_coded_client [1; 2; 3] "E872"
    = Raise BigQueryNotInstalled.
Proof.
  apply (proj2 (evaluate_missing_library_iff false one_coded_client [1; 2; 3] "E872")).
  split; [reflexivity|discriminate].
Defined.

(** X12: once the client has answered for a non-empty candidate list, the
    result has the columns [subject_id] and [has_code], its subjects are
    exactly the candidates (none missing, none added by the answer), and
    [has_code] is true exactly on the rows of subjects that the answer
    lists. *)
Theorem evaluate_subjects_and_codes (client : bq_client diag_row)
    (subjects : list Z) (icd : string) (diag_df : list diag_row) :
  subjects ≠ [] →
  client (diag_query (String.concat "," (pretty <$> py_set_list subjects)) icd)
    = Answer diag_df →
  ∃ results,
    evaluate_against_diagnosis true client subjects icd = Return results ∧
    columns results = ["subject_id"; "has_code"] ∧
    (∀ s, s ∈ (rows results).*1 ↔ s ∈ subjects) ∧
    (∀ s b, (s, b) ∈ rows results →
       (b = true ↔ s ∈ diag_subject_id <$> diag_df)).
Proof.
  intros Hne Hclient.
  destruct (evaluate_rows client subjects icd diag_df Hne Hclient)
    as (rows & Heq & Hsub & Hcode & _).
  exists (CohortFrame ["subject_id"; "has_code"] rows). done.
Qed.

Lemma evaluate_subjects_and_codes_witness :
  ∃ results,
    evaluate_against_diagnosis true two_admissions_client [7; 9] "E872" = Return results ∧
    columns results = ["subject_id"; "has_code"] ∧
    (∀ s, s ∈ (rows results).*1 ↔ s ∈ [7; 9]) ∧
    (∀ s b, (s, b) ∈ rows results →
       (b = true ↔ s ∈ diag_subject_id <$> two_admissions)).
Proof.
  apply (evaluate_subjects_and_codes two_admissions_client [7; 9] "E872" two_admissions).
  - discriminate.
  - reflexivity.
Defined.

Lemma length_filter_split (rows : list (Z * bool)) :
  length rows
  = (length (filter (λ r, r.2 = true) rows)
     + length (filter (λ r, r.2 = false) rows))%nat.
Proof.
  induction rows as [|[s b] rows IH]; [done|].
  rewrite !filter_cons. destruct b; simpl; lia.
Qed.

Lemma length_filter_key_cons (right : list (Z * bool)) (s : Z) (left : list Z) :
  s ∉ left →
  length (filter (λ r, r.1 ∈ s :: left) right)
  = (length (filter (λ r, r.1 = s) right)
     + length (filter (λ r, r.1 ∈ left) right))%nat.
Proof.
  intros Hs. induction right as [|[k b] right IH]; [done|].
  rewrite !filter_cons. simpl.
  destruct (decide (k = s)) as [->|Hne].
  - rewrite decide_True by left. rewrite (decide_False (P := s ∈ left)) by done.
    simpl. lia.
  - destruct (decide (k ∈ left)) as [Hin|Hout].
    + rewrite decide_True by (by right). simpl. lia.
    + rewrite decide_False; [lia|]. intros [?|?]%elem_of_cons; done.
Qed.

Lemma matched_block_counts (s : Z) (matches : list (Z * bool)) :
  Forall (λ r, r.2 = true) matches →
  length (filter (λ r, r.2 = true)
            (fillna false ((λ r, (s, Some r.2)) <$> matches))) = length matches ∧
  length (filter (λ r, r.2 = false)
            (fillna false ((λ r, (s, Some r.2)) <$> matches))) = 0%nat.
Proof.
  intros Hm. unfold fillna. induction Hm as [|[k b] l Hb _ [IHt IHf]]; [done|].
  simpl in Hb. subst b. rewrite !fmap_cons, !filter_cons. simpl.
  rewrite IHt, IHf. done.
Qed.

(** The rows of one left key after [fillna]: as many true rows as the key
    has rows on the right, and one false row when it has none. *)
Lemma merge_block_counts (right : list (Z * bool)) (s : Z) :
  Forall (λ r, r.2 = true) right →
  let block :=
    fillna false
      match filter (λ r, r.1 = s) right with
      | [] => [(s, None)]
      | matches => (λ r, (s, Some r.2)) <$> matches
      end in
  length (filter (λ r, r.2 = true) block) = length (filter (λ r, r.1 = s) right) ∧
  length (filter (λ r, r.2 = false) block)
    = (if decide (s ∈ right.*1) then 0 else 1)%nat.
Proof.
  intros Htrue. simpl.
  assert (Hm : Forall (λ r, r.2 = true) (filter (λ r, r.1 = s) right)).
  { rewrite Forall_forall in Htrue |- *.
    intros r [_ Hr]%list_elem_of_filter. by apply Htrue. }
  assert (Hkey : s ∈ right.*1 ↔ filter (λ r, r.1 = s) right ≠ []).
  { split.
    - intros ([k b] & -> & Hin)%list_elem_of_fmap Hnil.
      by eapply (filter_nil_not_elem_of _ _ (k, b)).
    - destruct (filter (λ r, r.1 = s) right) as [|[k b] rest] eqn:Hf; [done|]. intros _.
      assert (Hin : (k, b) ∈ filter (λ r, r.1 = s) right) by (rewrite Hf; left).
      apply list_elem_of_filter in Hin as [<- Hin].
      by apply (list_elem_of_fmap_2' fst _ (k, b)). }
  destruct (filter (λ r, r.1 = s) right) as [|p rest] eqn:Hf.
  - rewrite decide_False by (rewrite Hkey; by intros []). done.
  - rewrite decide_True by (by rewrite Hkey).
    exact (matched_block_counts s (p :: rest) Hm).
Qed.

Lemma merge_left_counts (left : list Z) (right : list (Z * bool)) :
  NoDup left → Forall (λ r, r.2 = true) right →
  length (filter (λ r, r.2 = true) (fillna false (merge_left left right)))
    = length (filter (λ r, r.1 ∈ left) right) ∧
  length (filter (λ r, r.2 = false) (fillna false (merge_left left right)))
    = length (filter (λ s, s ∉ right.*1) left).
Proof.
  intros Hnd Htrue. induction Hnd as [|s left Hs Hnd IH].
  - split; [|done]. simpl. symmetry. apply length_zero_iff_nil.
    apply elem_of_nil_inv. intros r [Hr _]%list_elem_of_filter.
    by apply elem_of_nil in Hr.
  - destruct IH as [IHt IHf].
    destruct (merge_block_counts right s Htrue) as [Ht Hf].
    unfold merge_left in *. rewrite bind_cons. unfold fillna in *.
    rewrite fmap_app, !filter_app, !length_app, IHt, IHf, Ht, Hf.
    rewrite length_filter_key_cons by done. split; [done|].
    rewrite filter_cons. destruct (decide (s ∈ right.*1)).
    + by rewrite decide_False by (by intros ?).
    + by rewrite decide_True.
Qed.

Lemma merge_left_length_ge (left : list Z) (right : list (Z * bool)) :
  (length left ≤ length (merge_left left right))%nat.
Proof.
  unfold merge_left. induction left as [|s left IH]; [done|].
  rewrite bind_cons, length_app.
  match goal with
  | |- context [length (left ≫= ?f)] => set (n := length (left ≫= f)) in *
  end.
  destruct (filter (λ r, r.1 = s) right); simpl; lia.
Qed.

Lemma length_filter_with_code (subjects : list Z) (diag_df : list diag_row) :
  length (filter (λ r : Z * bool, r.1 ∈ subjects)
            ((λ r, (diag_subject_id r, true)) <$> diag_df))
  = length (filter (λ r, diag_subject_id r ∈ subjects) diag_df).
Proof.
  induction diag_df as [|r diag_df IH]; [done|].
  rewrite fmap_cons, !filter_cons. simpl.
  destruct (decide (diag_subject_id r ∈ subjects)); simpl; by rewrite IH.
Qed.

Lemma py_set_list_NoDup (subjects : list Z) : NoDup (py_set_list subjects).
Proof. unfold py_set_list. apply NoDup_elements. Qed.

Lemma elem_of_py_set_list (subjects : list Z) (s : Z) :
  s ∈ py_set_list subjects ↔ s ∈ subjects.
Proof. unfold py_set_list. by rewrite elem_of_elements, elem_of_list_to_set. Qed.

(** X13: what the counts of the result are once the client has answered:
    the rows with [has_code] true are as many as the rows of the answer that
    belong to a candidate (one per diagnosis row, not one per subject), the
    other rows are as many as the distinct candidates the answer does not
    list, and the result never has fewer rows than distinct candidates. *)
Theorem evaluate_counts (client : bq_client diag_row)
    (subjects : list Z) (icd : string) (diag_df : list diag_row) :
  subjects ≠ [] →
  client (diag_query (String.concat "," (pretty <$> py_set_list subjects)) icd)
    = Answer diag_df →
  ∃ results,
    evaluate_against_diagnosis true client subjects icd = Return results ∧
    num_with_code results
      = Z.of_nat (length (filter (λ r, diag_subject_id r ∈ subjects) diag_df)) ∧
    total_subjects results - num_with_code results
      = Z.of_nat (length (filter (λ s, s ∉ diag_subject_id <$> diag_df)
                            (py_set_list subjects))) ∧
    Z.of_nat (length (py_set_list subjects)) ≤ total_subjects results.
Proof.
  intros Hne Hclient.
  assert (Hemp : empty_frame subjects = false) by (by destruct subjects).
  unfold evaluate_against_diagnosis, run_query. rewrite Hemp. cbn [negb].
  rewrite Hclient. unfold mbind, result_bind.
  set (with_code := (λ r, (diag_subject_id r, true)) <$> diag_df).
  eexists. split; [reflexivity|].
  unfold num_with_code, total_subjects. cbn [rows].
  assert (Hkeys : with_code.*1 = diag_subject_id <$> diag_df).
  { unfold with_code. rewrite <- list_fmap_compose. done. }
  assert (Htrue : Forall (λ r : Z * bool, r.2 = true) with_code).
  { unfold with_code. apply Forall_fmap. by apply Forall_true. }
  destruct (merge_left_counts (py_set_list subjects) with_code) as [Ht Hf];
    [apply py_set_list_NoDup|done|].
  set (result_rows := fillna false (merge_left (py_set_list subjects) with_code)) in *.
  assert (HA : length (filter (λ r : Z * bool, r.2 = true) result_rows)
               = length (filter (λ r, diag_subject_id r ∈ subjects) diag_df)).
  { rewrite Ht. rewrite (list_filter_iff _ (λ r : Z * bool, r.1 ∈ subjects)).
    - apply length_filter_with_code.
    - intros r. by rewrite elem_of_py_set_list. }
  assert (HB : length (filter (λ r : Z * bool, r.2 = false) result_rows)
               = length (filter (λ s, s ∉ diag_subject_id <$> diag_df)
                           (py_set_list subjects))).
  { by rewrite Hf, Hkeys. }
  pose proof (length_filter_split result_rows) as HN.
  assert (HL : (length (py_set_list subjects) ≤ length result_rows)%nat).
  { unfold result_rows, fillna. rewrite length_fmap. apply merge_left_length_ge. }
  split_and!; lia.
Qed.

Lemma evaluate_counts_witness :
  ∃ results,
    evaluate_against_diagnosis true two_admissions_client [7; 9] "E872" = Return results ∧
    num_with_code results
      = Z.of_nat (length (filter (λ r, diag_subject_id r ∈ [7; 9]) two_admissions)) ∧
    total_subjects results - num_with_code results
      = Z.of_nat (length (filter (λ s, s ∉ diag_subject_id <$> two_admissions)
                            (py_set_list [7; 9]))) ∧
    Z.of_nat (length (py_set_list [7; 9])) ≤ total_subjects results.
Proof.
  apply (evaluate_counts two_admissions_client [7; 9] "E872" two_admissions).
  - discriminate.
  - reflexivity.
Defined.

Example evaluate_counts_two_admissions :
  ∃ result_rows,
    evaluate_against_diagnosis true two_admissions_client [7; 9] "E872"
    = Return (CohortFrame ["subject_id"; "has_code"] result_rows) ∧
    result_rows ≡ₚ [(7, true); (7, true); (9, false)].
Proof. eexists. split; [vm_compute; reflexivity|done]. Qed.

(** ** The fetch functions and [main] *)

(** With BigQuery installed, [run_query] only raises what the client
    raised. *)
Lemma run_query_raise {row : Type} (client : bq_client row) (query : string) (e : exn) :
  run_query true client query = Raise e → ∃ what, e = ClientError what.
Proof.
  unfold run_query. simpl. destruct (client query) as [frame|what]; [discriminate|].
  intros [= <-]. by exists what.
Qed.

Lemma accuracy_returns (results : cohort_frame) : ∃ acc, accuracy results = Return acc.
Proof.
  unfold accuracy, py_truediv. case_bool_decide; [|by eexists].
  rewrite bool_decide_eq_false_2 by lia. by eexists.
Qed.

(** With BigQuery installed, neither the missing-library error nor a
    division by zero comes out of [evaluate_against_diagnosis]. *)
Lemma evaluate_raise (client : bq_client diag_row) (subjects : list Z)
    (icd : string) (e : exn) :
  evaluate_against_diagnosis true client subjects icd = Raise e →
  e ≠ BigQueryNotInstalled ∧ e ≠ ZeroDivisionError.
Proof.
  unfold evaluate_against_diagnosis. destruct (empty_frame subjects); [discriminate|].
  destruct (run_query true client _) as [frame|e'] eqn:Hq; simpl; [discriminate|].
  intros [= <-]. apply run_query_raise in Hq as [what ->]. done.
Qed.

(** X14: each fetch function raises the missing-library error exactly when
    BigQuery is not installed, whatever the client and the item lists. *)
Theorem fetch_missing_library_iff (bigquery_installed : bool)
    (items : bq_client Z) (labs : bq_client lab_event) (drugs : bq_client emar_row)
    (lactate_items ph_items : list Z) :
  (get_lactate_ph_items bigquery_installed items = Raise BigQueryNotInstalled ↔
     bigquery_installed = false) ∧
  (fetch_lab_events bigquery_installed labs lactate_items ph_items
     = Raise BigQueryNotInstalled ↔ bigquery_installed = false) ∧
  (fetch_vasoactive_drugs bigquery_installed drugs = Raise BigQueryNotInstalled ↔
     bigquery_installed = false).
Proof.
  unfold get_lactate_ph_items, fetch_lab_events, fetch_vasoactive_drugs, run_query.
  destruct bigquery_installed; simpl; [|done].
  split_and!; split; try discriminate.
  - destruct (items lactate_query); simpl; [|discriminate].
    destruct (items ph_query); discriminate.
  - destruct (labs _); discriminate.
  - destruct (drugs _); discriminate.
Qed.

(** X15: [get_lactate_ph_items] returns the two [itemid] columns exactly
    when the client answers both queries, the lactate one first; a failure of
    the lactate query is the error raised, whatever the pH query would
    give. *)
Theorem get_lactate_ph_items_outcome (items : bq_client Z) :
  (∀ lactate ph,
     get_lactate_ph_items true items = Return (lactate, ph) ↔
     items lactate_query = Answer lactate ∧ items ph_query = Answer ph) ∧
  (∀ what, items lactate_query = Failure what →
     get_lactate_ph_items true items = Raise (ClientError what)).
Proof.
  unfold get_lactate_ph_items, run_query. simpl. split.
  - intros lactate ph.
    destruct (items lactate_query) as [l|w]; simpl;
      [destruct (items ph_query) as [p|w]; simpl|]; split;
      try discriminate; try (intros [? ?]; discriminate).
    + intros [= -> ->]. done.
    + intros [[= ->] [= ->]]. done.
  - intros what ->. done.
Qed.

Lemma get_lactate_ph_items_outcome_witness :
  get_lactate_ph_items true (λ _, Failure "quota") = Raise (ClientError "quota").
Proof.
  apply (proj2 (get_lactate_ph_items_outcome (λ _, Failure "quota")) "quota").
  reflexivity.
Defined.

Lemma pipeline_raise (sort_values : list lab_event → list lab_event)
    (service : bq_service) (e : exn) :
  pipeline sort_values true service = Raise e →
  e ≠ BigQueryNotInstalled ∧ e ≠ ZeroDivisionError.
Proof.
  unfold pipeline, get_lactate_ph_items, fetch_lab_events, fetch_vasoactive_drugs.
  destruct (run_query true (items_client service) lactate_query) as [l|e1] eqn:H1;
    simpl; [|intros [= <-]; by apply run_query_raise in H1 as [? ->]].
  destruct (run_query true (items_client service) ph_query) as [p|e2] eqn:H2;
    simpl; [|intros [= <-]; by apply run_query_raise in H2 as [? ->]].
  destruct (run_query true (labs_client service) _) as [labs|e3] eqn:H3;
    simpl; [|intros [= <-]; by apply run_query_raise in H3 as [? ->]].
  destruct (run_query true (drugs_client service) _) as [drugs|e4] eqn:H4;
    simpl; [|intros [= <-]; by apply run_query_raise in H4 as [? ->]].
  destruct (evaluate_against_diagnosis true (diag_client service) _ _)
    as [results|e5] eqn:H5;
    simpl; [|intros [= <-]; by apply evaluate_raise in H5].
  destruct (accuracy_returns results) as [acc ->]. discriminate.
Qed.

(** X16: [main] exits for the missing library exactly when BigQuery is not
    installed, and for the missing project exactly when BigQuery is
    installed and [GOOGLE_CLOUD_PROJECT] is unset or empty; the library is
    tested first. *)
Theorem main_exit_iff (sort_values : list lab_event → list lab_event)
    (bigquery_installed : bool) (project : option string)
    (connect : string → connection) :
  (main sort_values bigquery_installed project connect = SystemExit BigQueryMissing ↔
     bigquery_installed = false) ∧
  (main sort_values bigquery_installed project connect = SystemExit ProjectUnset ↔
     bigquery_installed = true ∧ (project = None ∨ project = Some "")).
Proof.
  unfold main. destruct bigquery_installed; simpl.
  - destruct project as [pid|].
    + case_bool_decide as Hp.
      * subst pid. split; split; try done; auto.
      * destruct (connect pid) as [service|what];
          [destruct (pipeline sort_values true service)|];
          split; split; try discriminate; intros [_ [?|[= ?]]]; done.
    + split; split; try done; auto.
  - split; split; try done. intros [? _]. discriminate.
Qed.

(** X17: neither the missing-library error of [run_query] nor a division
    by zero leaves [main]: the library is tested at line 215 before any
    query, and the quotient of line 234 is taken for a positive count
    only. *)
Theorem main_guards_hold (sort_values : list lab_event → list lab_event)
    (bigquery_installed : bool) (project : option string)
    (connect : string → connection) :
  main sort_values bigquery_installed project connect
    ≠ Uncaught BigQueryNotInstalled ∧
  main sort_values bigquery_installed project connect
    ≠ Uncaught ZeroDivisionError.
Proof.
  unfold main. destruct bigquery_installed; simpl; [|done].
  destruct project as [pid|]; [|done].
  case_bool_decide; [done|].
  destruct (connect pid) as [service|what]; [|done].
  destruct (pipeline sort_values true service) as [out|e] eqn:Hp; [done|].
  apply pipeline_raise in Hp as [Hlib Hdiv].
  split; intros [= ->]; done.
Qed.

Lemma pipeline_return (sort_values : list lab_event → list lab_event)
    (bigquery_installed : bool) (service : bq_service) (out : summary) :
  pipeline sort_values bigquery_installed service = Return out →
  ∃ results,
    accuracy results = Return (printed_percentage out) ∧
    printed_total out = total_subjects results ∧
    printed_with_code out = num_with_code results.
Proof.
  unfold pipeline.
  destruct (get_lactate_ph_items _ _) as [items|?]; simpl; [|discriminate].
  destruct (fetch_lab_events _ _ _ _) as [labs|?]; simpl; [|discriminate].
  destruct (fetch_vasoactive_drugs _ _) as [drugs|?]; simpl; [|discriminate].
  destruct (evaluate_against_diagnosis _ _ _ _) as [results|?]; simpl; [|discriminate].
  destruct (accuracy results) as [acc|?] eqn:Hacc; simpl; [|discriminate].
  intros [= <-]. by exists results.
Qed.

(** X18: when [main] prints its summary, the number of subjects with the
    code is between 0 and the number of subjects, the percentage is 0.0
    when there is no subject, and it is the quotient times 100 otherwise. *)
Theorem main_printed_counts (sort_values : list lab_event → list lab_event)
    (bigquery_installed : bool) (project : option string)
    (connect : string → connection) (out : summary) :
  main sort_values bigquery_installed project connect = Printed out →
  0 ≤ printed_with_code out ≤ printed_total out ∧
  (printed_total out = 0 → printed_percentage out = S754_zero false) ∧
  (0 < printed_total out →
     printed_percentage out
     = PyFloat.mul
         (PyFloat.truediv (PyFloat.of_int (printed_with_code out))
            (PyFloat.of_int (printed_total out)))
         (PyFloat.of_int 100)).
Proof.
  unfold main. destruct bigquery_installed; simpl; [|discriminate].
  destruct project as [pid|]; [|discriminate].
  case_bool_decide; [discriminate|].
  destruct (connect pid) as [service|what]; [|discriminate].
  destruct (pipeline sort_values true service) as [out'|e] eqn:Hp; [|discriminate].
  intros [= ->]. apply pipeline_return in Hp as (results & Hacc & -> & ->).
  assert (Hle : (length (filter (λ r : Z * bool, r.2 = true) (rows results))
                 ≤ length (rows results))%nat) by apply length_filter.
  unfold accuracy, py_truediv in Hacc. unfold num_with_code, total_subjects in *.
  split_and!; [lia|lia| |].
  - intros Hz. rewrite bool_decide_eq_false_2 in Hacc by lia. congruence.
  - intros Hpos. rewrite bool_decide_eq_true_2 in Hacc by lia.
    rewrite bool_decide_eq_false_2 in Hacc by lia. simpl in Hacc. congruence.
Qed.

Example main_sample_run :
  main sort_by_charttime true (Some "project") (λ _, Connected sample_service)
  = Printed (Summary 1 1 (PyFloat.of_int 100)).
Proof. vm_compute. reflexivity. Qed.

Lemma main_printed_counts_witness :
  0 ≤ 1 ≤ 1 ∧
  (1 = 0 → PyFloat.of_int 100 = S754_zero false) ∧
  (0 < 1 →
     PyFloat.of_int 100
     = PyFloat.mul (PyFloat.truediv (PyFloat.of_int 1) (PyFloat.of_int 1))
         (PyFloat.of_int 100)).
Proof.
  apply (main_printed_counts sort_by_charttime true (Some "project")
           (λ _, Connected sample_service) (Summary 1 1 (PyFloat.of_int 100))).
  vm_compute. reflexivity.
Defined.

Lemma main_exit_iff_witness :
  main sort_by_charttime true (Some "") (λ _, Connected sample_service)
  = SystemExit ProjectUnset.
Proof.
  apply (proj2 (proj2 (main_exit_iff sort_by_charttime true (Some "")
                         (λ _, Connected sample_service)))).
  split; [reflexivity|by right].
Defined.

Lemma fetch_missing_library_iff_witness :
  fetch_vasoactive_drugs false (λ _, Answer pressor_drugs) = Raise BigQueryNotInstalled.
Proof.
  apply (proj2 (proj2 (proj2 (fetch_missing_library_iff false
           (λ _, Answer lactate_ids) (λ _, Answer two_subjects)
           (λ _, Answer pressor_drugs) lactate_ids ph_ids)))).
  reflexivity.
Defined.
